(** * Frameless6_API: frameless window, title bar and modal dialog

    A shallow embedding of [FramelessWindow/frameless_window.py].  The
    Python classes are event-handler code over the Qt toolkit.  Each
    method is a function on a record holding the attributes of the
    object and the part of the toolkit state that the method reads or
    writes.  Toolkit calls whose only role is an outward effect are
    recorded in a trace. *)

From Stdlib Require Import ZArith List String Ascii Bool Arith Lia.
Import ListNotations.

Open Scope string_scope.
Open Scope list_scope.
Open Scope Z_scope.

(** ** Python values *)

(** Exception classes.  [KeyboardInterrupt] and [SystemExit] derive from
    [BaseException] only; the others derive from [Exception]. *)
Inductive exn : Type :=
| AttributeError
| OSError
| ArgumentError
| ValueError
| IndexError
| KeyboardInterrupt
| SystemExit.

Definition is_Exception (e : exn) : bool :=
  match e with
  | KeyboardInterrupt | SystemExit => false
  | _ => true
  end.

(** Outcome of a call that may raise. *)
Inductive pyresult (A : Type) : Type :=
| Ok (a : A)
| Raise (e : exn).
Arguments Ok {A} a.
Arguments Raise {A} e.

Definition pybind {A B} (r : pyresult A) (k : A -> pyresult B) : pyresult B :=
  match r with
  | Ok a => k a
  | Raise e => Raise e
  end.

(** [try: body / except Exception: handler]. *)
Definition try_except_Exception {A} (body : pyresult A) (handler : pyresult A)
  : pyresult A :=
  match body with
  | Ok a => Ok a
  | Raise e => if is_Exception e then handler else Raise e
  end.

(** A Python [str] is kept as its UTF-8 bytes.  [str.lower] is a library
    function over all of Unicode and is a parameter wherever the code
    calls it.  On a string of 7-bit characters it maps [A]..[Z] to
    [a]..[z] and keeps every other character; [ascii_lower] is that
    restriction. *)
Definition lower_char (c : ascii) : ascii :=
  let n := nat_of_ascii c in
  if (Nat.leb 65 n && Nat.leb n 90)%bool then ascii_of_nat (n + 32) else c.

Fixpoint ascii_lower (s : string) : string :=
  match s with
  | EmptyString => EmptyString
  | String c s' => String (lower_char c) (ascii_lower s')
  end.

Fixpoint is_7bit (s : string) : bool :=
  match s with
  | EmptyString => true
  | String c s' => Nat.ltb (nat_of_ascii c) 128 && is_7bit s'
  end.

(** [s.replace(old, new)] for a one-character [old]. *)
Fixpoint replace (old : ascii) (new : string) (s : string) : string :=
  match s with
  | EmptyString => EmptyString
  | String c s' =>
      if Ascii.eqb c old then (new ++ replace old new s')%string
      else String c (replace old new s')
  end.

(** [x or default] on an optional string: [None] and the empty string are
    falsy. *)
Definition str_or (x : option string) (default : string) : string :=
  match x with
  | None => default
  | Some EmptyString => default
  | Some s => s
  end.

(** ** Constants of the Qt namespace *)

Module Qt.
(* Qt.Edge *)
Definition TopEdge : Z := 1.
Definition LeftEdge : Z := 2.
Definition RightEdge : Z := 4.
Definition BottomEdge : Z := 8.
(* Qt.MouseButton *)
Definition LeftButton : Z := 1.
Definition RightButton : Z := 2.
(* Qt.Key and Qt.KeyboardModifier *)
Definition Key_Tab : Z := 16777217.
Definition Key_Return : Z := 16777220.
Definition NoModifier : Z := 0.
Definition ShiftModifier : Z := 33554432.
(* Qt.FocusPolicy *)
Definition NoFocus : Z := 0.
Definition TabFocus : Z := 1.
Definition StrongFocus : Z := 11.

Inductive CursorShape : Type :=
| SizeVerCursor
| SizeHorCursor
| SizeBDiagCursor
| SizeFDiagCursor.

Inductive FocusReason : Type :=
| TabFocusReason
| OtherFocusReason.
End Qt.

Definition RESIZE_MARGIN : Z := 8.

(** ** FramelessWindow *)

Module Window.

(** What [setTitleBar] may store: a [TitleBar] instance, whose
    [setTitle] sets the text of its label, or some other widget that
    has no [setTitle] attribute. *)
Inductive widget_object : Type :=
| TitleBar (_title_label : string)
| QWidget.

(** Outward toolkit and platform calls, most recent first in the trace. *)
Inductive effect : Type :=
| StartSystemResize (edges : Z)
| SuperMousePress
| SetCurrentProcessExplicitAppUserModelID (app_id : string).

Record State : Type := mkState {
  _app_name : string;
  windowTitle : string;
  (* the names as last given to setApplicationName and
     setApplicationDisplayName; while such a name is empty Qt reports
     the name of the executable instead *)
  applicationName : string;
  applicationDisplayName : string;
  _resize_edges : Z;
  _title_bar : option widget_object;
  isMaximized : bool;
  rect_width : Z;
  rect_height : Z;
  cursor : option Qt.CursorShape;   (* [None]: no cursor set on the window *)
  trace : list effect;
  windowHandle : bool   (* whether [self.windowHandle()] is a window, not [None] *)
}.

Definition set_app_name (n : string) (w : State) : State :=
  mkState n (windowTitle w) (applicationName w) (applicationDisplayName w)
          (_resize_edges w) (_title_bar w) (isMaximized w)
          (rect_width w) (rect_height w) (cursor w) (trace w) (windowHandle w).

Definition setWindowTitle (t : string) (w : State) : State :=
  mkState (_app_name w) t (applicationName w) (applicationDisplayName w)
          (_resize_edges w) (_title_bar w) (isMaximized w)
          (rect_width w) (rect_height w) (cursor w) (trace w) (windowHandle w).

(** [QApplication.instance().setApplicationName(n)]: the name is stored
    as given, the empty one too. *)
Definition setApplicationName (n : string) (w : State) : State :=
  mkState (_app_name w) (windowTitle w) n (applicationDisplayName w)
          (_resize_edges w) (_title_bar w) (isMaximized w)
          (rect_width w) (rect_height w) (cursor w) (trace w) (windowHandle w).

Definition setApplicationDisplayName (n : string) (w : State) : State :=
  mkState (_app_name w) (windowTitle w) (applicationName w) n
          (_resize_edges w) (_title_bar w) (isMaximized w)
          (rect_width w) (rect_height w) (cursor w) (trace w) (windowHandle w).

Definition set_resize_edges (e : Z) (w : State) : State :=
  mkState (_app_name w) (windowTitle w) (applicationName w)
          (applicationDisplayName w) e (_title_bar w) (isMaximized w)
          (rect_width w) (rect_height w) (cursor w) (trace w) (windowHandle w).

Definition set_title_bar (t : option widget_object) (w : State) : State :=
  mkState (_app_name w) (windowTitle w) (applicationName w)
          (applicationDisplayName w) (_resize_edges w) t (isMaximized w)
          (rect_width w) (rect_height w) (cursor w) (trace w) (windowHandle w).

Definition set_maximized (b : bool) (w : State) : State :=
  mkState (_app_name w) (windowTitle w) (applicationName w)
          (applicationDisplayName w) (_resize_edges w) (_title_bar w) b
          (rect_width w) (rect_height w) (cursor w) (trace w) (windowHandle w).

Definition resize (width height : Z) (w : State) : State :=
  mkState (_app_name w) (windowTitle w) (applicationName w)
          (applicationDisplayName w) (_resize_edges w) (_title_bar w)
          (isMaximized w) width height (cursor w) (trace w) (windowHandle w).

Definition set_cursor (c : option Qt.CursorShape) (w : State) : State :=
  mkState (_app_name w) (windowTitle w) (applicationName w)
          (applicationDisplayName w) (_resize_edges w) (_title_bar w)
          (isMaximized w) (rect_width w) (rect_height w) c (trace w) (windowHandle w).

Definition set_windowHandle (b : bool) (w : State) : State :=
  mkState (_app_name w) (windowTitle w) (applicationName w)
          (applicationDisplayName w) (_resize_edges w) (_title_bar w)
          (isMaximized w) (rect_width w) (rect_height w) (cursor w)
          (trace w) b.

Definition log (e : effect) (w : State) : State :=
  mkState (_app_name w) (windowTitle w) (applicationName w)
          (applicationDisplayName w) (_resize_edges w) (_title_bar w)
          (isMaximized w) (rect_width w) (rect_height w) (cursor w)
          (e :: trace w) (windowHandle w).

Definition setCursor (c : Qt.CursorShape) : State -> State := set_cursor (Some c).
Definition unsetCursor : State -> State := set_cursor None.

(** *** Public API *)

Definition setTitleBar (title_bar : widget_object) (w : State) : State :=
  set_title_bar (Some title_bar) w.

(** *** Resize handling *)

(** Lines 104-113 of [mouseMoveEvent]: the edge flags for a pointer at
    [(x, y)] in a window of the given size. *)
Definition edges_at (width height x y : Z) : Z :=
  let edges := 0 in
  let edges := if x <=? RESIZE_MARGIN then Z.lor edges Qt.LeftEdge else edges in
  let edges := if x >=? width - RESIZE_MARGIN then Z.lor edges Qt.RightEdge else edges in
  let edges := if y <=? RESIZE_MARGIN then Z.lor edges Qt.TopEdge else edges in
  let edges := if y >=? height - RESIZE_MARGIN then Z.lor edges Qt.BottomEdge else edges in
  edges.

(** [edges in (a, b)] on flag values. *)
Definition in2 (edges a b : Z) : bool := (edges =? a) || (edges =? b).

(** The [if]/[elif] chain that picks the cursor. *)
Definition cursor_for (edges : Z) : option Qt.CursorShape :=
  if in2 edges Qt.LeftEdge Qt.RightEdge then Some Qt.SizeHorCursor
  else if in2 edges Qt.TopEdge Qt.BottomEdge then Some Qt.SizeVerCursor
  else if in2 edges (Z.lor Qt.TopEdge Qt.LeftEdge) (Z.lor Qt.BottomEdge Qt.RightEdge)
       then Some Qt.SizeFDiagCursor
  else if in2 edges (Z.lor Qt.TopEdge Qt.RightEdge) (Z.lor Qt.BottomEdge Qt.LeftEdge)
       then Some Qt.SizeBDiagCursor
  else None.

(** [pos] is [event.position().toPoint()]. *)
Definition mouseMoveEvent (pos : Z * Z) (w : State) : State :=
  if isMaximized w then unsetCursor w
  else
    let '(x, y) := pos in
    let edges := edges_at (rect_width w) (rect_height w) x y in
    let w := set_resize_edges edges w in
    set_cursor (cursor_for edges) w.

(** Returns the new state and whether the event was accepted by this
    handler; otherwise the press went to [QMainWindow.mousePressEvent].
    [self.windowHandle()] is [None] for a widget that has no native
    window of its own, and the attribute lookup on it then fails. *)
Definition mousePressEvent (button : Z) (w : State) : pyresult (State * bool) :=
  if (button =? Qt.LeftButton)
     && negb (_resize_edges w =? 0)
     && negb (isMaximized w)
  then
    if windowHandle w
    then Ok (log (StartSystemResize (_resize_edges w)) w, true)
    else Raise AttributeError
  else Ok (log SuperMousePress w, false).

(** *** App identity *)

Definition truthy (o : option widget_object) : bool :=
  match o with Some _ => true | None => false end.

(** [hasattr(o, "setTitle")]. *)
Definition hasattr_setTitle (o : option widget_object) : bool :=
  match o with Some (TitleBar _) => true | _ => false end.

(** [TitleBar.setTitle]: the text of the title label is replaced. *)
Definition setTitle (title : string) (_title_label : string) : widget_object :=
  TitleBar title.

(** [o.setTitle(title)]: the attribute lookup fails on [None] and on a
    widget without the method. *)
Definition call_setTitle (o : option widget_object) (title : string)
  : pyresult (option widget_object) :=
  match o with
  | Some (TitleBar label) => Ok (Some (setTitle title label))
  | _ => Raise AttributeError
  end.

Definition setAppName (name : string) (w : State) : pyresult State :=
  let w := set_app_name name w in
  let w := setWindowTitle name w in
  let w := setApplicationName name w in
  let w := setApplicationDisplayName name w in
  let w := setWindowTitle name w in
  if truthy (_title_bar w) && hasattr_setTitle (_title_bar w) then
    pybind (call_setTitle (_title_bar w) name)
           (fun tb => Ok (set_title_bar tb w))
  else Ok w.

(** *** Window grouping id *)

Section Platform.
(** [sys.platform], what the call into [shell32] does with a given
    identifier (it returns an HRESULT or raises), and [str.lower]. *)
Variable sys_platform : string.
Variable shell32_call : string -> pyresult Z.
Variable str_lower : string -> string.

Definition app_id_of (app_name : string) : string :=
  let safe_name := replace " "%char "" (str_lower app_name) in
  ("com.projectironman." ++ safe_name)%string.

Definition _apply_windows_app_id (w : State) : pyresult State :=
  if negb (String.eqb sys_platform "win32") then Ok w
  else
    let app_id := app_id_of (_app_name w) in
    let w' := log (SetCurrentProcessExplicitAppUserModelID app_id) w in
    try_except_Exception
      (pybind (shell32_call app_id) (fun _ => Ok w'))
      (Ok w').

(** The constructor, for a window of the given initial size.  The
    icon is not modelled.  A window that has not been shown has no
    native window yet. *)
Definition __init__ (app_name : option string) (width height : Z)
  : pyresult State :=
  let name := str_or app_name "Application" in
  let w := mkState name name name name 0 None false width height None []
                   false in
  pybind (_apply_windows_app_id w) (fun w =>
  let w := set_resize_edges 0 w in
  let w := set_title_bar None w in
  Ok w).
End Platform.

(** *** Title bar behaviour acting on its window *)

(** [TitleBar.toggle_maximize]. *)
Definition toggle_maximize (w : State) : State :=
  set_maximized (if isMaximized w then false else true) w.

End Window.

(** ** FramelessDialog *)

Module DialogCode.
Definition REJECTED : Z := 0.
Definition ACCEPTED : Z := 1.
End DialogCode.

Module Dialog.

(** Identity of a widget object. *)
Definition widget : Type := nat.

(** A descendant of the dialog as [findChildren(QWidget)] lists it, with
    what [isVisible()] and [focusPolicy()] answer for it. *)
Record Child : Type := mkChild {
  child_id : widget;
  child_isVisible : bool;
  child_focusPolicy : Z
}.

(** The parent window: only its enabled flag is read or written here. *)
Record ParentWindow : Type := mkParent { isEnabled : bool }.

(** What the application object and the widgets answer. *)
Record Toolkit : Type := mkToolkit {
  focusWidget : option widget;      (* QApplication.focusWidget() *)
  findChildren : list Child;        (* self.findChildren(QWidget) *)
  widgetEnabled : widget -> bool;   (* w.isEnabled() *)
  inActiveWindow : widget -> bool   (* w.isActiveWindow() *)
}.

(** The focus widget replaced, the rest of the toolkit state kept. *)
Definition with_focus (f : option widget) (t : Toolkit) : Toolkit :=
  mkToolkit f (findChildren t) (widgetEnabled t) (inActiveWindow t).

(** Window-management calls made by the dialog.  How each of them moves
    the input focus, enables or activates widgets, or changes the widget
    tree is the window system's business and is a parameter of the
    model. *)
Inductive wm_call : Type :=
| ParentSetEnabled (enable : bool)
| ParentActivateWindow
| Move
| Show
| Raise_
| ActivateWindow
| Hide.

Record State : Type := mkState {
  (* attributes set by FramelessDialog.__init__ *)
  _event_loop : option nat;
  _result : Z;
  _parent : option ParentWindow;
  _previous_focus : option widget;
  (* the dialog window and the toolkit *)
  isVisible : bool;
  tk : Toolkit;
  (* QEventLoop objects and the [finished] signal *)
  event_loops : nat;            (* loops constructed so far; the next id *)
  finished_slots : list nat;    (* loops whose [quit] is connected to [finished] *)
  exit_flags : list nat;        (* loops that were asked to quit *)
  running : list nat;           (* loops now inside [QEventLoop.exec], innermost first *)
  peak_running : nat            (* the largest length [running] has had *)
}.

Definition set_event_loop (l : option nat) (d : State) : State :=
  mkState l (_result d) (_parent d) (_previous_focus d) (isVisible d) (tk d)
          (event_loops d) (finished_slots d) (exit_flags d) (running d)
          (peak_running d).

Definition set_result (r : Z) (d : State) : State :=
  mkState (_event_loop d) r (_parent d) (_previous_focus d) (isVisible d)
          (tk d) (event_loops d) (finished_slots d) (exit_flags d)
          (running d) (peak_running d).

Definition set_parent (p : option ParentWindow) (d : State) : State :=
  mkState (_event_loop d) (_result d) p (_previous_focus d) (isVisible d)
          (tk d) (event_loops d) (finished_slots d) (exit_flags d)
          (running d) (peak_running d).

Definition set_previous_focus (w : option widget) (d : State) : State :=
  mkState (_event_loop d) (_result d) (_parent d) w (isVisible d) (tk d)
          (event_loops d) (finished_slots d) (exit_flags d) (running d)
          (peak_running d).

Definition set_visible (b : bool) (d : State) : State :=
  mkState (_event_loop d) (_result d) (_parent d) (_previous_focus d) b
          (tk d) (event_loops d) (finished_slots d) (exit_flags d)
          (running d) (peak_running d).

Definition set_tk (t : Toolkit) (d : State) : State :=
  mkState (_event_loop d) (_result d) (_parent d) (_previous_focus d)
          (isVisible d) t (event_loops d) (finished_slots d) (exit_flags d)
          (running d) (peak_running d).

Definition set_loops (n : nat) (slots flags run : list nat) (peak : nat)
           (d : State) : State :=
  mkState (_event_loop d) (_result d) (_parent d) (_previous_focus d)
          (isVisible d) (tk d) n slots flags run peak.

(** *** Toolkit calls *)

Definition mem (l : nat) (ls : list nat) : bool := existsb (Nat.eqb l) ls.

Definition remove_all (l : nat) (ls : list nat) : list nat :=
  filter (fun k => negb (Nat.eqb l k)) ls.

(** [w.setFocus(reason)]: [QWidget.setFocus] returns at once on a
    disabled widget, and it makes [w] the focus widget of the
    application only when [w] is in the active window. *)
Definition setFocus (w : widget) (reason : Qt.FocusReason) (d : State) : State :=
  if widgetEnabled (tk d) w && inActiveWindow (tk d) w
  then set_tk (with_focus (Some w) (tk d)) d
  else d.

(** [QEventLoop(self)]: a new loop object; its id is returned. *)
Definition new_QEventLoop (d : State) : nat * State :=
  (event_loops d,
   set_loops (S (event_loops d)) (finished_slots d) (exit_flags d)
             (running d) (peak_running d) d).

(** [self.finished.connect(loop.quit)]. *)
Definition finished_connect (l : nat) (d : State) : State :=
  set_loops (event_loops d) (l :: finished_slots d) (exit_flags d)
            (running d) (peak_running d) d.

(** [self.finished.emit(result)]: every connected [quit] slot runs. *)
Definition finished_emit (result : Z) (d : State) : State :=
  set_loops (event_loops d) (finished_slots d)
            (finished_slots d ++ exit_flags d) (running d) (peak_running d) d.

(** Entering [loop.exec()]: the exit flag of the loop is cleared. *)
Definition loop_enter (l : nat) (d : State) : State :=
  set_loops (event_loops d) (finished_slots d) (remove_all l (exit_flags d))
            (l :: running d)
            (Nat.max (peak_running d) (S (List.length (running d)))) d.

(** Leaving [loop.exec()]. *)
Definition loop_leave (d : State) : State :=
  set_loops (event_loops d) (finished_slots d) (exit_flags d)
            (tl (running d)) (peak_running d) d.

Definition exit_requested (l : nat) (d : State) : bool := mem l (exit_flags d).

(** *** Blocking computations

    [exec] blocks in a nested event loop until the dialog is dismissed.
    A computation either returns a value, or is still waiting for
    events when the events that were scripted for it have all been
    delivered. *)
Inductive outcome (A : Type) : Type :=
| Done (a : A) (d : State)
| Waiting (d : State).
Arguments Done {A} a d.
Arguments Waiting {A} d.

Definition M (A : Type) : Type := State -> outcome A.

Definition ret {A} (a : A) : M A := fun d => Done a d.

Definition bind {A B} (m : M A) (k : A -> M B) : M B :=
  fun d =>
    match m d with
    | Done a d' => k a d'
    | Waiting d' => Waiting d'
    end.

Definition act (f : State -> State) : M unit := fun d => Done tt (f d).

Definition get {A} (f : State -> A) : M A := fun d => Done (f d) d.

Definition when (b : bool) (m : M unit) : M unit := if b then m else ret tt.

Notation "x <- m ;; k" := (bind m (fun x => k))
  (at level 61, m at next level, right associativity).
Notation "m ;; k" := (bind m (fun _ => k))
  (at level 61, right associativity).

(** The state in which a computation ends or waits. *)
Definition final {A} (o : outcome A) : State :=
  match o with
  | Done _ d => d
  | Waiting d => d
  end.

(** What an event handler, or the code that owns the dialog, does with
    it.  [Exec events] calls [exec()]; [events] are the handlers that the
    nested loop of that call gets to run, in order, if it starts one.
    [FocusMoved] and [ParentEnabled] stand for the user or other code
    moving the focus or switching the parent window on and off. *)
#[local] Unset Elimination Schemes.
Inductive call : Type :=
| Accept
| Reject
| Close
| KeyPress (key modifiers : Z)
| Exec (events : list (list call))
| FocusMoved (w : option widget)
| ParentEnabled (enable : bool).
#[local] Set Elimination Schemes.

Section WindowSystem.

Variable wm : wm_call -> Toolkit -> Toolkit.

Definition window_system (c : wm_call) (d : State) : State :=
  set_tk (wm c (tk d)) d.

Definition show (d : State) : State := window_system Show (set_visible true d).
Definition hide (d : State) : State := window_system Hide (set_visible false d).
Definition raise_ : State -> State := window_system Raise_.
Definition activateWindow : State -> State := window_system ActivateWindow.

(** [self._parent.setEnabled(b)] on an existing parent. *)
Definition parent_setEnabled (b : bool) (d : State) : State :=
  window_system (ParentSetEnabled b) (set_parent (Some (mkParent b)) d).

Definition parent_activateWindow : State -> State :=
  window_system ParentActivateWindow.

Definition has_parent (d : State) : bool :=
  match _parent d with Some _ => true | None => false end.

Definition new_QEventLoop_M : M nat :=
  fun d => let '(l, d') := new_QEventLoop d in Done l d'.

(** *** Dialog control *)

Definition done (result : Z) (d : State) : State :=
  let d := set_result result d in
  let d := hide d in
  finished_emit result d.

Definition accept : State -> State := done DialogCode.ACCEPTED.
Definition reject : State -> State := done DialogCode.REJECTED.

(** Returns the new state and whether the close event was accepted. *)
Definition closeEvent (d : State) : State * bool := (reject d, true).

(** [QWidget.close()], what the close affordance of the window manager
    triggers: the close event is delivered and, when it was accepted,
    a window that is still shown gets hidden. *)
Definition close (d : State) : State :=
  let '(d, accepted) := closeEvent d in
  if accepted && isVisible d then hide d else d.

(** *** Centering: only the resulting [move] is kept. *)
Definition _center_on_parent : State -> State := window_system Move.

(** *** Focus trap *)

(** [w == x] for a listed widget [w] and what [focusWidget()]
    returned, which may be [None]. *)
Definition same_widget (c : Child) (x : option widget) : bool :=
  match x with
  | None => false
  | Some w => Nat.eqb (child_id c) w
  end.

(** [x in widgets]. *)
Definition py_in (x : option widget) (widgets : list Child) : bool :=
  existsb (fun c => same_widget c x) widgets.

(** [widgets.index(x)]. *)
Fixpoint list_index (x : option widget) (widgets : list Child)
  : pyresult nat :=
  match widgets with
  | [] => Raise ValueError
  | c :: rest =>
      if same_widget c x then Ok O
      else pybind (list_index x rest) (fun i => Ok (S i))
  end.

(** [widgets[i]], negative indices counting from the end. *)
Definition list_get (widgets : list Child) (i : Z) : pyresult Child :=
  let n := Z.of_nat (List.length widgets) in
  let j := if i <? 0 then n + i else i in
  if (0 <=? j) && (j <? n) then
    match nth_error widgets (Z.to_nat j) with
    | Some c => Ok c
    | None => Raise IndexError
    end
  else Raise IndexError.

Definition focus_candidates (d : State) : list Child :=
  filter (fun w => child_isVisible w
                   && negb (child_focusPolicy w =? Qt.NoFocus))
         (findChildren (tk d)).

Definition _focus_next (reverse : bool) (d : State) : pyresult State :=
  let widgets := focus_candidates d in
  match widgets with
  | [] => Ok d
  | first :: _ =>
      let current := focusWidget (tk d) in
      if negb (py_in current widgets)
      then Ok (setFocus (child_id first) Qt.TabFocusReason d)
      else
        pybind (list_index current widgets) (fun idx =>
        let idx := if reverse then Z.of_nat idx - 1
                   else Z.of_nat idx + 1 in
        pybind (list_get widgets (idx mod Z.of_nat (List.length widgets)))
               (fun w => Ok (setFocus (child_id w) Qt.TabFocusReason d)))
  end.

(** Returns the new state and whether the handler accepted the event;
    otherwise it went to [QMainWindow.keyPressEvent]. *)
Definition keyPressEvent (key modifiers : Z) (d : State)
  : pyresult (State * bool) :=
  if key =? Qt.Key_Tab then
    pybind (_focus_next (negb (Z.land modifiers Qt.ShiftModifier =? 0)) d)
           (fun d => Ok (d, true))
  else Ok (d, false).


(** *** Exec / modality *)

(** [exec], with [loop_exec l] standing for [self._event_loop.exec()]
    on the loop with id [l]. *)
Definition exec_with (loop_exec : nat -> M unit) : M Z :=
  running_loop <- get _event_loop ;;
  match running_loop with
  | Some _ => get _result                      (* already running *)
  | None =>
      p <- get has_parent ;;
      when p (act (parent_setEnabled false)) ;;
      current <- get (fun d => focusWidget (tk d)) ;;
      act (set_previous_focus current) ;;
      l <- new_QEventLoop_M ;;
      act (set_event_loop (Some l)) ;;
      act (finished_connect l) ;;
      act _center_on_parent ;;
      act show ;;
      act raise_ ;;
      act activateWindow ;;
      loop_exec l ;;
      p <- get has_parent ;;
      when p (act (parent_setEnabled true) ;; act parent_activateWindow) ;;
      previous <- get _previous_focus ;;
      match previous with
      | Some w => act (setFocus w Qt.OtherFocusReason)
      | None => ret tt
      end ;;
      act (set_event_loop None) ;;
      get _result
  end.

(** An exception that escapes a handler is reported by the binding
    and the event loop goes on with the state as it was left. *)
Definition handled (r : pyresult (State * bool)) (d : State) : State :=
  match r with
  | Ok (d', _) => d'
  | Raise _ => d
  end.

Section EventLoop.
Variable run_call : call -> M unit.

Fixpoint run_handler (h : list call) : M unit :=
  match h with
  | [] => ret tt
  | c :: h' => run_call c ;; run_handler h'
  end.

(** The body of [QEventLoop.exec]: handlers run one after the other
    until one of them leaves the exit flag of the loop set. *)
Fixpoint process_events (l : nat) (events : list (list call)) : M unit :=
  match events with
  | [] => fun d => Waiting d
  | h :: events' =>
      run_handler h ;;
      quit <- get (exit_requested l) ;;
      if quit then ret tt else process_events l events'
  end.

Definition QEventLoop_exec (events : list (list call)) (l : nat) : M unit :=
  act (loop_enter l) ;;
  process_events l events ;;
  act loop_leave.
End EventLoop.

Fixpoint run_call (c : call) : M unit :=
  match c with
  | Accept => act accept
  | Reject => act reject
  | Close => act close
  | KeyPress key modifiers =>
      act (fun d => handled (keyPressEvent key modifiers d) d)
  | Exec events =>
      exec_with (QEventLoop_exec run_call events) ;; ret tt
  | FocusMoved w =>
      act (fun d => set_tk (with_focus w (tk d)) d)
  | ParentEnabled b =>
      act (fun d => match _parent d with
                    | Some _ => set_parent (Some (mkParent b)) d
                    | None => d
                    end)
  end.

(** [exec()] when the nested loop, if one starts, is fed [events]. *)
Definition exec (events : list (list call)) : M Z :=
  exec_with (QEventLoop_exec run_call events).

(** A sequence of calls on the dialog made outside any of its loops. *)
Definition run (program : list call) : M unit := run_handler run_call program.

(** [FramelessDialog.__init__]. *)
Definition __init__ (parent : option ParentWindow) (t : Toolkit) : State :=
  mkState None DialogCode.REJECTED parent None false t 0%nat [] [] [] 0%nat.

End WindowSystem.

End Dialog.

(** ** Vocabulary of the properties *)

Module Props.

Import Window.

(** Whether the pointer is within the margin of the left, right, top
    and bottom edge, in this order. *)
Definition near (width height x y : Z) : bool * bool * bool * bool :=
  (x <=? RESIZE_MARGIN,
   width - RESIZE_MARGIN <=? x,
   y <=? RESIZE_MARGIN,
   height - RESIZE_MARGIN <=? y).

(** The flags of the edges whose margin holds the pointer. *)
Definition near_flags (n : bool * bool * bool * bool) : Z :=
  let '(l, r, t, b) := n in
  (if l then Qt.LeftEdge else 0) + (if r then Qt.RightEdge else 0)
  + (if t then Qt.TopEdge else 0) + (if b then Qt.BottomEdge else 0).

(** Events that reach a window: pointer moves, button presses, the
    maximize button of the title bar, the window system giving the
    window a new size, and the window being shown as a top-level window,
    from when on it has a native window.  An exception that escapes a
    handler is reported by the binding and leaves the window as the
    handler left it. *)
Inductive event : Type :=
| MouseMove (x y : Z)
| MousePress (button : Z)
| ToggleMaximize
| Resized (width height : Z)
| Shown.

Definition deliver (w : State) (e : event) : State :=
  match e with
  | MouseMove x y => mouseMoveEvent (x, y) w
  | MousePress button =>
      match mousePressEvent button w with
      | Ok (w', _) => w'
      | Raise _ => w
      end
  | ToggleMaximize => toggle_maximize w
  | Resized width height => resize width height w
  | Shown => set_windowHandle true w
  end.

Definition deliver_all (events : list event) (w : State) : State :=
  fold_left deliver events w.

(** A window as its constructor leaves it on a platform other than
    win32. *)
Definition fresh_window (width height : Z) : State :=
  mkState "Application" "Application" "Application" "Application"
          0 None false width height None [] false.

(** The same window once it has been shown as a top-level window. *)
Definition shown_window (width height : Z) : State :=
  set_windowHandle true (fresh_window width height).

Definition is_upper (c : ascii) : bool :=
  let n := nat_of_ascii c in (Nat.leb 65 n && Nat.leb n 90)%bool.

End Props.

Module DialogProps.

Import Dialog.

(** The call that dismisses a run of the dialog. *)
Inductive dismissal : Type :=
| ByAccept
| ByReject
| ByClose.

Definition dismissal_of (c : call) : option dismissal :=
  match c with
  | Accept => Some ByAccept
  | Reject => Some ByReject
  | Close => Some ByClose
  | _ => None
  end.

(** The last dismissing call of a handler: the nested loop returns only
    when the handler that asked it to quit has returned. *)
Fixpoint last_dismissal (h : list call) : option dismissal :=
  match h with
  | [] => None
  | c :: h' =>
      match last_dismissal h' with
      | Some k => Some k
      | None => dismissal_of c
      end
  end.

(** What dismisses a run whose nested loop is fed [events]: the last
    dismissing call of the first handler that has one. *)
Fixpoint dismissed_by (events : list (list call)) : option dismissal :=
  match events with
  | [] => None
  | h :: events' =>
      match last_dismissal h with
      | Some k => Some k
      | None => dismissed_by events'
      end
  end.

Definition result_code (k : dismissal) : Z :=
  match k with
  | ByAccept => DialogCode.ACCEPTED
  | ByReject => DialogCode.REJECTED
  | ByClose => DialogCode.REJECTED
  end.

(** What the handlers run inside a nested loop leave untouched. *)
Definition loop_frame (d d' : State) : Prop :=
  _event_loop d' = _event_loop d
  /\ _previous_focus d' = _previous_focus d
  /\ has_parent d' = has_parent d
  /\ event_loops d' = event_loops d
  /\ finished_slots d' = finished_slots d
  /\ running d' = running d
  /\ peak_running d' = peak_running d.

(** The state in which [exec] enters the nested loop [event_loops d],
    and the state in which it returns once that loop has returned. *)
Definition before_loop (wm : wm_call -> Toolkit -> Toolkit) (d : State) : State :=
  let d := if has_parent d then parent_setEnabled wm false d else d in
  let d := set_previous_focus (focusWidget (tk d)) d in
  let d := snd (new_QEventLoop d) in
  let d := set_event_loop (Some (pred (event_loops d))) d in
  let d := finished_connect (pred (event_loops d)) d in
  activateWindow wm (raise_ wm (show wm (_center_on_parent wm d))).

Definition after_loop (wm : wm_call -> Toolkit -> Toolkit) (d : State) : State :=
  let d := if has_parent d
           then parent_activateWindow wm (parent_setEnabled wm true d)
           else d in
  let d := match _previous_focus d with
           | Some w => setFocus w Qt.OtherFocusReason d
           | None => d
           end in
  set_event_loop None d.

(** The focus widget that [exec] records: with a parent, the one the
    application reports once the parent has been disabled. *)
Definition focus_at_snapshot (wm : wm_call -> Toolkit -> Toolkit) (d : State)
  : option widget :=
  if has_parent d then focusWidget (wm (ParentSetEnabled false) (tk d))
  else focusWidget (tk d).

(** Tab presses, one per modifier value, in order. *)
Fixpoint press_tabs (modifiers : list Z) (d : State) : pyresult State :=
  match modifiers with
  | [] => Ok d
  | m :: rest =>
      pybind (keyPressEvent Qt.Key_Tab m d) (fun r => press_tabs rest (fst r))
  end.

Definition ids (widgets : list Child) : list widget := map child_id widgets.

(** A window system under which no call moves the focus or changes the
    widget tree, and sample dialogs: three of the four descendants
    are visible, and two of those accept the focus. *)
Definition still : wm_call -> Toolkit -> Toolkit := fun _ t => t.

(** A window system that takes the focus away from every widget when
    the parent window is disabled, and is otherwise like [still]. *)
Definition drops_focus : wm_call -> Toolkit -> Toolkit :=
  fun c t =>
    match c with
    | ParentSetEnabled false => with_focus None t
    | _ => t
    end.

Definition sample_children : list Child :=
  [mkChild 10%nat true Qt.StrongFocus; mkChild 11%nat false Qt.StrongFocus;
   mkChild 12%nat true Qt.NoFocus; mkChild 13%nat true Qt.TabFocus].

Definition sample_dialog (parent_enabled : bool) (focus : option widget)
  : State :=
  __init__ (Some (mkParent parent_enabled))
           (mkToolkit focus sample_children (fun _ => true) (fun _ => true)).

(** A dialog without a parent whose three candidates are 10, 13 and 14,
    all in the active window, the last one disabled. *)
Definition cycle_children : list Child :=
  [mkChild 10%nat true Qt.StrongFocus; mkChild 13%nat true Qt.TabFocus;
   mkChild 14%nat true Qt.StrongFocus].

Definition dialog_with_disabled_candidate (focus : option widget) : State :=
  __init__ None
           (mkToolkit focus cycle_children
                      (fun w => negb (Nat.eqb w 14)) (fun _ => true)).


(** The toolkit lets [w] take the focus: it is enabled and in the
    active window. *)
Definition focusable (t : Toolkit) (w : widget) : Prop :=
  widgetEnabled t w = true /\ inActiveWindow t w = true.

(** Every candidate of the focus cycle can take the focus. *)
Definition candidates_focusable (d : State) : Prop :=
  forall c, In c (focus_candidates d) -> focusable (tk d) (child_id c).

(** No loop of the dialog is running, and none ever ran inside another. *)
Definition idle (d : State) : Prop :=
  _event_loop d = None /\ running d = [] /\ (peak_running d <= 1)%nat.

End DialogProps.

(** ** The window side of a dialog, and further vocabulary *)

Module DialogWindow.

Import Window.

(** What [FramelessDialog.__init__] may be given as [parent]: an instance
    of [FramelessWindow], some other widget, or [None]. *)
Inductive parent_object : Type :=
| FramelessWindowParent (w : State)
| WidgetParent
| NoParent.

(** Lines 310-315: the name handed on to [FramelessWindow.__init__]. *)
Definition inherited_app_name (parent : parent_object) : option string :=
  match parent with
  | FramelessWindowParent w => Some (_app_name w)
  | _ => None
  end.

(** [TitleBar.__init__] as far as the window is concerned: the new title
    bar, whose label shows [title], registers itself with the window. *)
Definition TitleBar__init__ (title : string) (window : State) : State :=
  setTitleBar (TitleBar title) window.

Section Platform.
Variable sys_platform : string.
Variable shell32_call : string -> pyresult Z.
Variable str_lower : string -> string.

(** [FramelessDialog.__init__] on the attributes that the dialog has as
    a [FramelessWindow]: the base constructor with the inherited name,
    the fixed size of 420 x 200 and the title bar labelled [title]. *)
Definition __init__ (parent : parent_object) (title : string)
           (width height : Z) : pyresult State :=
  let app_name := inherited_app_name parent in
  pybind (Window.__init__ sys_platform shell32_call str_lower app_name
                          width height)
         (fun w =>
            let w := resize 420 200 w in
            let w := TitleBar__init__ title w in
            Ok w).
End Platform.

End DialogWindow.

Module MoreProps.

Import Window Props.

(** Pointer moves to the given positions, in order. *)
Definition pointer_moves (positions : list (Z * Z)) : list event :=
  map (fun p => MouseMove (fst p) (snd p)) positions.

(** A recorded system resize names at least one edge and only edges. *)
Definition resize_well_formed (e : effect) : Prop :=
  match e with
  | StartSystemResize edges => 1 <= edges <= 15
  | _ => True
  end.

(** The part of the identifier that comes from the application name. *)
Definition safe_name (str_lower : string -> string) (app_name : string)
  : string :=
  replace " "%char "" (str_lower app_name).

(** [str.lower] as it acts on strings of 7-bit characters. *)
Definition lower_on_7bit (str_lower : string -> string) : Prop :=
  forall s, is_7bit s = true -> str_lower s = ascii_lower s.

(** The window of a dialog that was given a parent, on a platform other
    than win32: [setParent(parent)] has made it a child widget, which
    has no native window of its own, shown or not. *)
Definition child_dialog_window : State :=
  mkState "Application" "Application" "Application" "Application"
          0 (Some (TitleBar "Dialog")) false 420 200 None [] false.

End MoreProps.

Module DialogMoreProps.

Import Dialog.

(** The call is not other code switching the parent window on or off. *)
Definition not_parent_switch (c : call) : Prop :=
  match c with
  | ParentEnabled _ => False
  | _ => True
  end.

(** [Qt.Key_Escape]. *)
Definition Key_Escape : Z := 16777216.

(** No handler of the events switches the parent window on or off. *)
Definition no_parent_switch (events : list (list call)) : Prop :=
  Forall (Forall not_parent_switch) events.

End DialogMoreProps.

(** * Properties of the frameless window *)

Module WindowFacts.

Import Window Props MoreProps.

Lemma fresh_window_init (width height : Z) (call : string -> pyresult Z)
      (str_lower : string -> string) :
  __init__ "linux" call str_lower None width height
  = Ok (fresh_window width height).
Proof. reflexivity. Qed.

(** The flags computed by [mouseMoveEvent] are the union of the flags of
    the edges whose margin holds the pointer. *)
Lemma edges_at_near (width height x y : Z) :
  edges_at width height x y = near_flags (near width height x y).
Proof.
  unfold edges_at, near, near_flags.
  rewrite !Z.geb_leb.
  destruct (x <=? RESIZE_MARGIN), (width - RESIZE_MARGIN <=? x),
    (y <=? RESIZE_MARGIN), (height - RESIZE_MARGIN <=? y); reflexivity.
Qed.

Lemma mouseMove_not_maximized (w : State) (x y : Z) :
  isMaximized w = false ->
  mouseMoveEvent (x, y) w =
    set_cursor (cursor_for (edges_at (rect_width w) (rect_height w) x y))
      (set_resize_edges (edges_at (rect_width w) (rect_height w) x y) w).
Proof. intros H. unfold mouseMoveEvent. rewrite H. reflexivity. Qed.

(** C4, as amended.  While the window is maximized a pointer move does no
    edge detection: it clears the cursor and leaves the stored edge set
    as it was, whatever the pointer position; while the window is not
    maximized every pointer move stores the edge set recomputed from the
    pointer position and the window size alone. *)
Theorem mouseMove_edge_set (w : State) (x y : Z) :
  (isMaximized w = true ->
     _resize_edges (mouseMoveEvent (x, y) w) = _resize_edges w
     /\ cursor (mouseMoveEvent (x, y) w) = None)
  /\ (isMaximized w = false ->
        _resize_edges (mouseMoveEvent (x, y) w)
        = edges_at (rect_width w) (rect_height w) x y).
Proof.
  split; intros H.
  - unfold mouseMoveEvent. rewrite H. split; reflexivity.
  - rewrite mouseMove_not_maximized by exact H. reflexivity.
Qed.

Lemma mouseMove_edge_set_witness :
  _resize_edges (mouseMoveEvent (500, 300)
                   (set_maximized true
                      (set_resize_edges Qt.LeftEdge (fresh_window 1100 700))))
  = Qt.LeftEdge
  /\ _resize_edges (mouseMoveEvent (1095, 3) (fresh_window 1100 700))
     = edges_at 1100 700 1095 3.
Proof.
  split.
  - apply (proj1 (mouseMove_edge_set
                    (set_maximized true
                       (set_resize_edges Qt.LeftEdge (fresh_window 1100 700)))
                    500 300)).
    reflexivity.
  - apply (proj2 (mouseMove_edge_set (fresh_window 1100 700) 1095 3)).
    reflexivity.
Defined.

(** C4 as stated fails: a fresh 1100 x 700 window gets a pointer move on
    its left border, is maximized from the title bar and gets another
    pointer move; it is then maximized and its stored edge set is still
    the left edge. *)
Lemma stale_edges_while_maximized :
  let w := deliver_all [MouseMove 0 300; ToggleMaximize; MouseMove 500 300]
                       (fresh_window 1100 700) in
  isMaximized w = true /\ _resize_edges w = Qt.LeftEdge /\ _resize_edges w <> 0.
Proof. repeat split; discriminate. Qed.

(** C5.  For a window that is not maximized, the stored edge set and the
    cursor after a pointer move, by the edges whose 8 px margin holds
    the pointer: one edge gives that edge and the horizontal or vertical
    cursor, two adjacent edges give the corner pair and its diagonal
    cursor, no edge gives the empty set and no cursor, and three or
    four edges (as well as two opposite ones) leave no cursor set. *)
Theorem mouseMove_edges_and_cursor (w : State) (x y : Z) :
  isMaximized w = false ->
  let w' := mouseMoveEvent (x, y) w in
  let e := _resize_edges w' in
  let c := cursor w' in
  match near (rect_width w) (rect_height w) x y with
  | (true, false, false, false) => e = Qt.LeftEdge /\ c = Some Qt.SizeHorCursor
  | (false, true, false, false) => e = Qt.RightEdge /\ c = Some Qt.SizeHorCursor
  | (false, false, true, false) => e = Qt.TopEdge /\ c = Some Qt.SizeVerCursor
  | (false, false, false, true) => e = Qt.BottomEdge /\ c = Some Qt.SizeVerCursor
  | (true, false, true, false) =>
      e = Z.lor Qt.TopEdge Qt.LeftEdge /\ c = Some Qt.SizeFDiagCursor
  | (false, true, false, true) =>
      e = Z.lor Qt.BottomEdge Qt.RightEdge /\ c = Some Qt.SizeFDiagCursor
  | (false, true, true, false) =>
      e = Z.lor Qt.TopEdge Qt.RightEdge /\ c = Some Qt.SizeBDiagCursor
  | (true, false, false, true) =>
      e = Z.lor Qt.BottomEdge Qt.LeftEdge /\ c = Some Qt.SizeBDiagCursor
  | (false, false, false, false) => e = 0 /\ c = None
  | n => e = near_flags n /\ c = None
  end.
Proof.
  intros H. cbv zeta.
  rewrite mouseMove_not_maximized by exact H.
  cbn [_resize_edges cursor set_cursor set_resize_edges].
  rewrite edges_at_near.
  destruct (near (rect_width w) (rect_height w) x y) as [[[l r] t] b].
  destruct l, r, t, b; split; reflexivity.
Qed.

Lemma mouseMove_edges_and_cursor_witness :
  _resize_edges (mouseMoveEvent (1095, 3) (fresh_window 1100 700))
  = Z.lor Qt.TopEdge Qt.RightEdge
  /\ cursor (mouseMoveEvent (1095, 3) (fresh_window 1100 700))
     = Some Qt.SizeBDiagCursor.
Proof.
  exact (mouseMove_edges_and_cursor (fresh_window 1100 700) 1095 3 eq_refl).
Defined.

(** Three or four margins can hold the pointer only when the window is
    at most 16 px wide or at most 16 px high. *)
Lemma three_edges_small_window (width height x y : Z) :
  match near width height x y with
  | (true, true, _, _) => width <= 2 * RESIZE_MARGIN
  | (_, _, true, true) => height <= 2 * RESIZE_MARGIN
  | _ => True
  end.
Proof.
  unfold near, RESIZE_MARGIN.
  destruct (Z.leb_spec x 8), (Z.leb_spec (width - 8) x),
    (Z.leb_spec y 8), (Z.leb_spec (height - 8) y); try exact I; lia.
Qed.

(** What a mouse press does, case by case: the resize is started when
    the button is the left one, the stored edge set is not empty, the
    window is not maximized and the window has a native window; under
    the first three conditions and without a native window the handler
    raises; every other press goes to the default handler. *)
Lemma mousePress_cases (button : Z) (w : State) :
  let go := button = Qt.LeftButton /\ _resize_edges w <> 0
            /\ isMaximized w = false in
  (go -> windowHandle w = true ->
   mousePressEvent button w
   = Ok (log (StartSystemResize (_resize_edges w)) w, true))
  /\ (go -> windowHandle w = false ->
      mousePressEvent button w = Raise AttributeError)
  /\ (~ go -> mousePressEvent button w = Ok (log SuperMousePress w, false)).
Proof.
  cbv zeta. unfold mousePressEvent.
  destruct (Z.eqb_spec button Qt.LeftButton) as [Hb | Hb];
    destruct (Z.eqb_spec (_resize_edges w) 0) as [He | He];
    destruct (isMaximized w) eqn:Hm; cbn [andb negb];
    repeat split; intros;
    repeat match goal with
           | H : _ /\ _ |- _ => destruct H
           | H : windowHandle w = _ |- _ => rewrite H
           end;
    try reflexivity; try discriminate; try congruence; try tauto.
Qed.

Lemma child_dialog_window_init
      (call : string -> pyresult Z) (str_lower : string -> string)
      (width height : Z) :
  DialogWindow.__init__ "linux" call str_lower
    (DialogWindow.FramelessWindowParent (fresh_window 1100 700))
    "Dialog" width height
  = Ok child_dialog_window.
Proof. reflexivity. Qed.

(** C6.  The code does not do what the claim says on a window without
    a native window, such as a dialog that was given a parent: after a
    pointer move onto its left border the stored edge set is the left
    edge and the window is not maximized, yet a left press starts no
    resize and does not reach the default handler either: it raises
    [AttributeError]. *)
Theorem mousePress_without_native_window :
  let w := mouseMoveEvent (0, 100) child_dialog_window in
  _resize_edges w = Qt.LeftEdge
  /\ isMaximized w = false
  /\ mousePressEvent Qt.LeftButton w = Raise AttributeError.
Proof. repeat split. Qed.

(** C8.  [setAppName s] returns normally on every window, with or
    without a title bar; afterwards the window title is [s], and the
    label of an attached title bar is [s]. *)
Theorem setAppName_sync (s : string) (w : State) :
  exists w',
    setAppName s w = Ok w'
    /\ windowTitle w' = s
    /\ _app_name w' = s
    /\ (forall label, _title_bar w = Some (TitleBar label) ->
         _title_bar w' = Some (TitleBar s))
    /\ (_title_bar w = None -> _title_bar w' = None).
Proof.
  unfold setAppName.
  cbn [_title_bar set_app_name setWindowTitle setApplicationName
       setApplicationDisplayName].
  destruct (_title_bar w) as [[label | ] | ] eqn:Htb; cbn.
  - eexists; repeat split; intros; try discriminate; reflexivity.
  - eexists; repeat split; intros; try discriminate; cbn; congruence.
  - eexists; repeat split; intros; try discriminate; cbn; congruence.
Qed.

Lemma setAppName_sync_witness :
  exists w',
    setAppName "New Name" (setTitleBar (TitleBar "Frameless App")
                                       (fresh_window 1100 700)) = Ok w'
    /\ _title_bar w' = Some (TitleBar "New Name").
Proof.
  destruct (setAppName_sync "New Name"
              (setTitleBar (TitleBar "Frameless App") (fresh_window 1100 700)))
    as [w' [Hrun [_ [_ [Hbar _]]]]].
  exists w'. split; [exact Hrun | exact (Hbar "Frameless App" eq_refl)].
Defined.

Lemma lower_char_not_upper (c : ascii) : is_upper (lower_char c) = false.
Proof. destruct c as [[] [] [] [] [] [] [] []]; reflexivity. Qed.

Lemma lower_chars (s : string) (c : ascii) :
  In c (list_ascii_of_string (ascii_lower s)) -> is_upper c = false.
Proof.
  induction s as [| a s IH]; cbn; intros H.
  - contradiction.
  - destruct H as [H | H]; [subst c; apply lower_char_not_upper | auto].
Qed.

Lemma replace_empty_chars (old : ascii) (s : string) (c : ascii) :
  In c (list_ascii_of_string (replace old "" s)) ->
  c <> old /\ In c (list_ascii_of_string s).
Proof.
  induction s as [| a s IH]; cbn; intros H.
  - contradiction.
  - destruct (Ascii.eqb_spec a old) as [E | E]; cbn in H.
    + destruct (IH H) as [Hne Hin]. split; [exact Hne | right; exact Hin].
    + destruct H as [H | H].
      * subst c. split; [exact E | left; reflexivity].
      * destruct (IH H) as [Hne Hin]. split; [exact Hne | right; exact Hin].
Qed.

(** C9.  For every application name, [str.lower] being the library
    function it is: on win32 the one platform call made is the one that
    sets the identifier ["com.projectironman."] followed by the name
    lowercased with its spaces removed (so that part holds no space),
    and the function returns normally whether that call returns or
    fails, a failure being an exception derived from [Exception]; on
    any other platform nothing is done. *)
Theorem apply_windows_app_id_spec
        (platform : string) (call : string -> pyresult Z)
        (str_lower : string -> string) (w : State) :
  (forall e, call (app_id_of str_lower (_app_name w)) = Raise e ->
             is_Exception e = true) ->
  let safe_name := replace " "%char "" (str_lower (_app_name w)) in
  let app_id := ("com.projectironman." ++ safe_name)%string in
  (platform = "win32" ->
     _apply_windows_app_id platform call str_lower w
     = Ok (log (SetCurrentProcessExplicitAppUserModelID app_id) w))
  /\ (platform <> "win32" ->
      _apply_windows_app_id platform call str_lower w = Ok w)
  /\ (forall c, In c (list_ascii_of_string safe_name) -> c <> " "%char).
Proof.
  intros Hexc. cbv zeta. split; [| split].
  - intros ->. unfold _apply_windows_app_id. cbn [String.eqb Ascii.eqb negb].
    fold (app_id_of str_lower (_app_name w)).
    destruct (call (app_id_of str_lower (_app_name w))) as [hr | e] eqn:Hcall; cbn.
    + reflexivity.
    + rewrite (Hexc e eq_refl). reflexivity.
  - intros Hp. unfold _apply_windows_app_id.
    destruct (String.eqb_spec platform "win32") as [E | E]; [contradiction |].
    reflexivity.
  - intros c Hc. apply replace_empty_chars in Hc. exact (proj1 Hc).
Qed.

Lemma apply_windows_app_id_spec_witness :
  _apply_windows_app_id "win32" (fun _ => Raise OSError) ascii_lower
                        (set_app_name "My App" (fresh_window 1100 700))
  = Ok (log (SetCurrentProcessExplicitAppUserModelID "com.projectironman.myapp")
            (set_app_name "My App" (fresh_window 1100 700))).
Proof.
  refine (proj1 (apply_windows_app_id_spec "win32" (fun _ => Raise OSError)
                   ascii_lower
                   (set_app_name "My App" (fresh_window 1100 700)) _) eq_refl).
  intros e H. injection H as <-. reflexivity.
Defined.

End WindowFacts.

(** * Properties of the frameless dialog *)

Module DialogFacts.

Import Dialog DialogProps.

(** ** Focus cycling *)

Lemma py_in_In (x : widget) (ws : list Child) :
  py_in (Some x) ws = true <-> In x (ids ws).
Proof.
  unfold py_in, ids. rewrite existsb_exists, in_map_iff. cbn [same_widget].
  split; intros [c [H1 H2]]; exists c.
  - apply Nat.eqb_eq in H2. tauto.
  - split; [tauto | apply Nat.eqb_eq; tauto].
Qed.

Lemma py_in_absent (x : option widget) (ws : list Child) :
  (forall w, x = Some w -> ~ In w (ids ws)) -> py_in x ws = false.
Proof.
  intros H. destruct x as [w |].
  - destruct (py_in (Some w) ws) eqn:E; [| reflexivity].
    apply py_in_In in E. elim (H w eq_refl E).
  - clear H. unfold py_in.
    induction ws as [| a ws IH]; cbn; [reflexivity | exact IH].
Qed.

(** [index] finds a position holding the widget when [in] says it is
    listed. *)
Lemma list_index_found (x : option widget) (ws : list Child) :
  py_in x ws = true ->
  exists i c, list_index x ws = Ok i /\ nth_error ws i = Some c
              /\ same_widget c x = true.
Proof.
  unfold py_in. induction ws as [| a ws IH]; cbn; intros H.
  - discriminate.
  - destruct (same_widget a x) eqn:E.
    + exists O, a. auto.
    + cbn in H. destruct (IH H) as [i [c [Hi [Hn Hs]]]].
      exists (S i), c. rewrite Hi. auto.
Qed.

(** With distinct widgets, [index] of the widget at position [k] is [k]. *)
Lemma list_index_nodup (ws : list Child) :
  NoDup (ids ws) ->
  forall k c, nth_error ws k = Some c ->
              list_index (Some (child_id c)) ws = Ok k.
Proof.
  induction ws as [| a ws IH]; intros Hnd k c Hk.
  - destruct k; discriminate.
  - cbn in Hnd. inversion Hnd as [| ? ? Hnotin Hnd']; subst.
    destruct k as [| k]; cbn in Hk |- *.
    + injection Hk as ->. rewrite Nat.eqb_refl. reflexivity.
    + destruct (Nat.eqb_spec (child_id a) (child_id c)) as [E | E].
      * elim Hnotin. rewrite E. apply in_map. eapply nth_error_In; eauto.
      * rewrite (IH Hnd' k c Hk). reflexivity.
Qed.

(** An index reduced modulo the length is in range. *)
Lemma list_get_mod (ws : list Child) (z : Z) :
  ws <> [] ->
  exists c, nth_error ws (Z.to_nat (z mod Z.of_nat (List.length ws))) = Some c
            /\ list_get ws (z mod Z.of_nat (List.length ws)) = Ok c.
Proof.
  intros Hne.
  assert (Hlen : 0 < Z.of_nat (List.length ws)).
  { destruct ws; [congruence | cbn [List.length]; lia]. }
  pose proof (Z.mod_pos_bound z _ Hlen) as Hb.
  unfold list_get.
  destruct (Z.ltb_spec (z mod Z.of_nat (List.length ws)) 0) as [? | _]; [lia |].
  destruct (Z.leb_spec 0 (z mod Z.of_nat (List.length ws))) as [_ | ?]; [| lia].
  destruct (Z.ltb_spec (z mod Z.of_nat (List.length ws))
                       (Z.of_nat (List.length ws))) as [_ | ?]; [| lia].
  cbn [andb].
  destruct (nth_error ws (Z.to_nat (z mod Z.of_nat (List.length ws)))) as [c |] eqn:E.
  - exists c. auto.
  - apply nth_error_None in E. lia.
Qed.

Lemma focus_candidates_setFocus (w : widget) (r : Qt.FocusReason) (d : State) :
  focus_candidates (setFocus w r d) = focus_candidates d.
Proof. unfold setFocus. destruct (_ && _); reflexivity. Qed.

(** [setFocus] leaves everything but the focus widget as it is. *)
Lemma setFocus_flags (w : widget) (r : Qt.FocusReason) (d : State) :
  widgetEnabled (tk (setFocus w r d)) = widgetEnabled (tk d)
  /\ inActiveWindow (tk (setFocus w r d)) = inActiveWindow (tk d)
  /\ findChildren (tk (setFocus w r d)) = findChildren (tk d).
Proof. unfold setFocus. destruct (_ && _); repeat split; reflexivity. Qed.

Lemma setFocus_granted (w : widget) (r : Qt.FocusReason) (d : State) :
  focusable (tk d) w ->
  setFocus w r d = set_tk (with_focus (Some w) (tk d)) d.
Proof. intros [He Ha]. unfold setFocus. rewrite He, Ha. reflexivity. Qed.

Lemma setFocus_refused (w : widget) (r : Qt.FocusReason) (d : State) :
  widgetEnabled (tk d) w = false \/ inActiveWindow (tk d) w = false ->
  setFocus w r d = d.
Proof.
  intros [H | H]; unfold setFocus; rewrite H; [reflexivity |].
  rewrite andb_false_r. reflexivity.
Qed.

(** After [setFocus] the widget has the focus, or nothing has changed
    because the widget is disabled or outside the active window. *)
Lemma setFocus_outcome (w : widget) (r : Qt.FocusReason) (d : State) :
  (focusable (tk d) w /\ focusWidget (tk (setFocus w r d)) = Some w)
  \/ (~ focusable (tk d) w /\ setFocus w r d = d).
Proof.
  unfold focusable, setFocus.
  destruct (widgetEnabled (tk d) w), (inActiveWindow (tk d) w); cbn;
    [left; auto | right | right | right];
    (split; [intros [? ?]; discriminate | reflexivity]).
Qed.

Lemma candidates_focusable_setFocus (w : widget) (r : Qt.FocusReason) (d : State) :
  candidates_focusable d -> candidates_focusable (setFocus w r d).
Proof.
  unfold candidates_focusable, focusable. intros H c Hc.
  rewrite focus_candidates_setFocus in Hc.
  destruct (setFocus_flags w r d) as [E1 [E2 _]]. rewrite E1, E2. auto.
Qed.

(** [_focus_next] never raises: it leaves the state alone when there is
    no candidate and otherwise calls [setFocus] on one of them. *)
Lemma focus_next_total (reverse : bool) (d : State) :
  match focus_candidates d with
  | [] => _focus_next reverse d = Ok d
  | _ :: _ =>
      exists c, In c (focus_candidates d)
                /\ _focus_next reverse d
                   = Ok (setFocus (child_id c) Qt.TabFocusReason d)
  end.
Proof.
  unfold _focus_next.
  destruct (focus_candidates d) as [| first rest] eqn:Hws; [reflexivity |].
  destruct (py_in (focusWidget (tk d)) (first :: rest)) eqn:Hin; cbn [negb].
  - destruct (list_index_found _ _ Hin) as [i [c0 [Hi _]]].
    rewrite Hi. cbn [pybind].
    destruct (list_get_mod (first :: rest)
                (if reverse then Z.of_nat i - 1 else Z.of_nat i + 1))
      as [c [Hn Hg]]; [discriminate |].
    rewrite Hg. cbn [pybind]. exists c. split; [| reflexivity].
    eapply nth_error_In; eauto.
  - exists first. split; [left; reflexivity | reflexivity].
Qed.

(** One step of the cycle from position [k], widgets being distinct:
    [setFocus] is called on the candidate one position on, or back. *)
Lemma focus_next_step (reverse : bool) (d : State) (k : nat) (c : Child) :
  NoDup (ids (focus_candidates d)) ->
  nth_error (focus_candidates d) k = Some c ->
  focusWidget (tk d) = Some (child_id c) ->
  let n := Z.of_nat (List.length (focus_candidates d)) in
  let k' := Z.to_nat ((if reverse then Z.of_nat k - 1 else Z.of_nat k + 1) mod n) in
  exists c', nth_error (focus_candidates d) k' = Some c'
             /\ _focus_next reverse d
                = Ok (setFocus (child_id c') Qt.TabFocusReason d).
Proof.
  intros Hnd Hk Hfocus. cbv zeta. unfold _focus_next.
  destruct (focus_candidates d) as [| first rest] eqn:Hws.
  - destruct k; discriminate.
  - rewrite Hfocus.
    assert (Hin : py_in (Some (child_id c)) (first :: rest) = true).
    { apply py_in_In. apply in_map. eapply nth_error_In; eauto. }
    rewrite Hin. cbn [negb].
    rewrite (list_index_nodup _ Hnd k c Hk). cbn [pybind].
    destruct (list_get_mod (first :: rest)
                (if reverse then Z.of_nat k - 1 else Z.of_nat k + 1))
      as [c' [Hn Hg]]; [discriminate |].
    rewrite Hg. cbn [pybind]. exists c'. auto.
Qed.

Lemma keyPress_tab (m : Z) (d : State) :
  keyPressEvent Qt.Key_Tab m d
  = pybind (_focus_next (negb (Z.land m Qt.ShiftModifier =? 0)) d)
           (fun d' => Ok (d', true)).
Proof. reflexivity. Qed.

Lemma nth_error_last (ws : list Child) (dflt : Child) :
  ws <> [] -> nth_error ws (List.length ws - 1) = Some (last ws dflt).
Proof.
  induction ws as [| a ws IH]; intros Hne; [congruence |].
  destruct ws as [| b ws]; [reflexivity |].
  cbn [List.length] in *. replace (S (S (List.length ws)) - 1)%nat
    with (S (S (List.length ws) - 1)) by lia.
  cbn [nth_error]. rewrite IH by discriminate. reflexivity.
Qed.

(** The step of the cycle in terms of positions, when the candidate
    that is asked to take the focus can take it. *)
Lemma focus_next_position (reverse : bool) (d : State) (k : nat) (c : Child) :
  NoDup (ids (focus_candidates d)) ->
  candidates_focusable d ->
  nth_error (focus_candidates d) k = Some c ->
  focusWidget (tk d) = Some (child_id c) ->
  let N := List.length (focus_candidates d) in
  exists c',
    nth_error (focus_candidates d)
              ((if reverse then k + N - 1 else k + 1) mod N) = Some c'
    /\ _focus_next reverse d = Ok (setFocus (child_id c') Qt.TabFocusReason d)
    /\ focusWidget (tk (setFocus (child_id c') Qt.TabFocusReason d))
       = Some (child_id c').
Proof.
  intros Hnd Hcf Hk Hfocus. cbv zeta.
  assert (Hlt : (k < List.length (focus_candidates d))%nat).
  { apply nth_error_Some. congruence. }
  destruct (focus_next_step reverse d k c Hnd Hk Hfocus) as [c' [Hk' Hstep]].
  cbv zeta in Hk'. exists c'.
  assert (Hpos : nth_error (focus_candidates d)
                   ((if reverse then k + List.length (focus_candidates d) - 1
                     else k + 1) mod List.length (focus_candidates d))
                 = Some c').
  { rewrite <- Hk'. f_equal. destruct reverse.
    - replace (Z.of_nat k - 1)
        with (Z.of_nat (k + List.length (focus_candidates d) - 1)
              + (-1) * Z.of_nat (List.length (focus_candidates d))) by lia.
      rewrite Z_mod_plus_full, <- Nat2Z.inj_mod, Nat2Z.id. reflexivity.
    - replace (Z.of_nat k + 1) with (Z.of_nat (k + 1)) by lia.
      rewrite <- Nat2Z.inj_mod, Nat2Z.id. reflexivity. }
  split; [exact Hpos |]. split; [exact Hstep |].
  rewrite setFocus_granted; [reflexivity |].
  apply Hcf. eapply nth_error_In; eauto.
Qed.

(** [j] forward presses from position [k] end at position [k + j]
    modulo the number of candidates. *)
Lemma press_tabs_forward (j : nat) :
  forall (d : State) (k : nat) (c : Child),
    NoDup (ids (focus_candidates d)) ->
    candidates_focusable d ->
    nth_error (focus_candidates d) k = Some c ->
    focusWidget (tk d) = Some (child_id c) ->
    exists d' c',
      press_tabs (repeat Qt.NoModifier j) d = Ok d'
      /\ nth_error (focus_candidates d)
                   ((k + j) mod List.length (focus_candidates d)) = Some c'
      /\ focusWidget (tk d') = Some (child_id c')
      /\ focus_candidates d' = focus_candidates d.
Proof.
  induction j as [| j IH]; intros d k c Hnd Hcf Hk Hfocus.
  - exists d, c. cbn [repeat press_tabs].
    assert (Hlt : (k < List.length (focus_candidates d))%nat).
    { apply nth_error_Some. congruence. }
    rewrite Nat.add_0_r, Nat.mod_small by exact Hlt. auto.
  - destruct (focus_next_position false d k c Hnd Hcf Hk Hfocus)
      as [c1 [Hk1 [Hstep Hf1]]].
    cbv zeta in Hk1.
    destruct (IH (setFocus (child_id c1) Qt.TabFocusReason d)
                 ((k + 1) mod List.length (focus_candidates d))%nat c1)
      as [d' [c' [Hrun [Hn [Hf Hc]]]]].
    + rewrite focus_candidates_setFocus. exact Hnd.
    + apply candidates_focusable_setFocus. exact Hcf.
    + rewrite focus_candidates_setFocus. exact Hk1.
    + exact Hf1.
    + exists d', c'. cbn [repeat press_tabs].
      rewrite keyPress_tab.
      change (negb (Z.land Qt.NoModifier Qt.ShiftModifier =? 0)) with false.
      rewrite Hstep. cbn [pybind fst]. rewrite Hrun.
      rewrite focus_candidates_setFocus in Hn, Hc.
      rewrite Nat.Div0.add_mod_idemp_l in Hn.
      replace (k + S j)%nat with (k + 1 + j)%nat by lia. auto.
Qed.

(** Whatever Tab presses arrive, a focus that is on a candidate stays
    on a candidate. *)
Lemma press_tabs_inside (ms : list Z) :
  forall (d : State) (w : widget),
    focusWidget (tk d) = Some w ->
    In w (ids (focus_candidates d)) ->
    exists d' w',
      press_tabs ms d = Ok d'
      /\ focusWidget (tk d') = Some w'
      /\ In w' (ids (focus_candidates d))
      /\ focus_candidates d' = focus_candidates d.
Proof.
  induction ms as [| m ms IH]; intros d w Hfocus Hin.
  - exists d, w. cbn. auto.
  - cbn [press_tabs]. rewrite keyPress_tab.
    pose proof (focus_next_total (negb (Z.land m Qt.ShiftModifier =? 0)) d) as Ht.
    destruct (focus_candidates d) as [| first rest] eqn:Hws; [contradiction |].
    destruct Ht as [c [Hc Hstep]]. rewrite Hstep. cbn [pybind fst].
    assert (Hnext : exists w1,
               focusWidget (tk (setFocus (child_id c) Qt.TabFocusReason d))
               = Some w1
               /\ In w1 (ids (first :: rest))).
    { destruct (setFocus_outcome (child_id c) Qt.TabFocusReason d)
        as [[_ Hf] | [_ He]].
      - exists (child_id c). split; [exact Hf | apply in_map; exact Hc].
      - exists w. rewrite He. auto. }
    destruct Hnext as [w1 [Hf1 Hin1]].
    destruct (IH (setFocus (child_id c) Qt.TabFocusReason d) w1 Hf1)
      as [d' [w' [Hrun [Hf [Hi He]]]]].
    + rewrite focus_candidates_setFocus, Hws. exact Hin1.
    + rewrite focus_candidates_setFocus in Hi, He.
      exists d', w'. rewrite Hws in Hi, He. auto.
Qed.

(** ** The nested event loop *)

Lemma loop_frame_refl (d : State) : loop_frame d d.
Proof. unfold loop_frame. tauto. Qed.

Lemma loop_frame_trans (d1 d2 d3 : State) :
  loop_frame d1 d2 -> loop_frame d2 d3 -> loop_frame d1 d3.
Proof.
  unfold loop_frame.
  intros [A1 [A2 [A3 [A4 [A5 [A6 A7]]]]]] [B1 [B2 [B3 [B4 [B5 [B6 B7]]]]]].
  repeat split; congruence.
Qed.

Lemma set_tk_same (d : State) : set_tk (tk d) d = d.
Proof. destruct d. reflexivity. Qed.

Lemma setFocus_shape (w : widget) (r : Qt.FocusReason) (d : State) :
  exists t, setFocus w r d = set_tk t d.
Proof.
  unfold setFocus. destruct (_ && _).
  - eexists. reflexivity.
  - exists (tk d). symmetry. apply set_tk_same.
Qed.

(** A key press changes at most the toolkit side of the state. *)
Lemma handled_keyPress (key m : Z) (d : State) :
  exists t, handled (keyPressEvent key m d) d = set_tk t d.
Proof.
  unfold keyPressEvent. destruct (key =? Qt.Key_Tab).
  - pose proof (focus_next_total (negb (Z.land m Qt.ShiftModifier =? 0)) d) as H.
    destruct (focus_candidates d) as [| first rest].
    + rewrite H. exists (tk d). cbn. symmetry. apply set_tk_same.
    + destruct H as [c [_ H]]. rewrite H. cbn [pybind handled].
      apply setFocus_shape.
  - exists (tk d). cbn. symmetry. apply set_tk_same.
Qed.

Lemma keyPressEvent_total (key m : Z) (d : State) :
  exists d' accepted, keyPressEvent key m d = Ok (d', accepted).
Proof.
  unfold keyPressEvent. destruct (key =? Qt.Key_Tab).
  - pose proof (focus_next_total (negb (Z.land m Qt.ShiftModifier =? 0)) d) as H.
    destruct (focus_candidates d) as [| first rest].
    + rewrite H. cbn. eauto.
    + destruct H as [c [_ H]]. rewrite H. cbn. eauto.
  - eauto.
Qed.

Section Loop.

Variable wm : wm_call -> Toolkit -> Toolkit.

(** A call made while a loop of the dialog is running returns, keeps
    the loop bookkeeping, and sets the result and the exit flags
    exactly when it is a dismissing call. *)
Lemma run_call_in_loop (c : call) (d : State) (l : nat) :
  _event_loop d = Some l ->
  exists d',
    run_call wm c d = Done tt d'
    /\ loop_frame d d'
    /\ match dismissal_of c with
       | Some k => _result d' = result_code k
                   /\ exit_flags d' = finished_slots d ++ exit_flags d
       | None => _result d' = _result d /\ exit_flags d' = exit_flags d
       end.
Proof.
  intros Hl. destruct c as [ | | | key m | events | w | b ];
    cbn [run_call dismissal_of].
  - eexists. split; [reflexivity |]. unfold loop_frame. cbn. tauto.
  - eexists. split; [reflexivity |]. unfold loop_frame. cbn. tauto.
  - eexists. split; [reflexivity |]. unfold loop_frame. cbn. tauto.
  - destruct (handled_keyPress key m d) as [t Ht].
    eexists. split; [unfold act; rewrite Ht; reflexivity |].
    unfold loop_frame. cbn. tauto.
  - exists d. unfold bind, exec_with, bind, get. rewrite Hl.
    split; [reflexivity |]. split; [apply loop_frame_refl | tauto].
  - eexists. split; [reflexivity |]. unfold loop_frame. cbn. tauto.
  - eexists. split; [reflexivity |]. unfold loop_frame, has_parent.
    destruct (_parent d) eqn:Hp; cbn; rewrite ?Hp; tauto.
Qed.

Lemma run_handler_in_loop (h : list call) :
  forall (d : State) (l : nat),
    _event_loop d = Some l ->
    exists d',
      run_handler (run_call wm) h d = Done tt d'
      /\ loop_frame d d'
      /\ match last_dismissal h with
         | Some k => _result d' = result_code k
                     /\ (forall x, In x (finished_slots d) ->
                                   In x (exit_flags d'))
         | None => _result d' = _result d /\ exit_flags d' = exit_flags d
         end.
Proof.
  induction h as [| c h IH]; intros d l Hl.
  - exists d. cbn. split; [reflexivity |].
    split; [apply loop_frame_refl | tauto].
  - destruct (run_call_in_loop c d l Hl) as [d1 [Hc [Hf1 Hd1]]].
    assert (Hl1 : _event_loop d1 = Some l).
    { destruct Hf1 as [E _]. congruence. }
    destruct (IH d1 l Hl1) as [d' [Hh [Hf2 Hd2]]].
    exists d'. cbn [run_handler last_dismissal]. unfold bind.
    rewrite Hc, Hh. split; [reflexivity |].
    split; [eapply loop_frame_trans; eauto |].
    assert (Hs : finished_slots d1 = finished_slots d).
    { destruct Hf1 as [_ [_ [_ [_ [E _]]]]]. exact E. }
    destruct (last_dismissal h) as [k |].
    + destruct Hd2 as [Hr Hx]. split; [exact Hr |].
      intros x Hin. apply Hx. rewrite Hs. exact Hin.
    + destruct Hd2 as [Hr He]. destruct (dismissal_of c) as [k |].
      * destruct Hd1 as [Hr1 He1]. split; [congruence |].
        intros x Hin. rewrite He, He1. apply in_or_app. left. exact Hin.
      * destruct Hd1 as [Hr1 He1]. split; congruence.
Qed.

Lemma mem_In (l : nat) (ls : list nat) : mem l ls = true <-> In l ls.
Proof.
  unfold mem. rewrite existsb_exists. split.
  - intros [x [Hin Hx]]. apply Nat.eqb_eq in Hx. subst. exact Hin.
  - intros Hin. exists l. split; [exact Hin | apply Nat.eqb_refl].
Qed.

Lemma mem_remove_all (l : nat) (ls : list nat) : mem l (remove_all l ls) = false.
Proof.
  destruct (mem l (remove_all l ls)) eqn:E; [| reflexivity].
  apply mem_In in E. unfold remove_all in E. apply filter_In in E.
  destruct E as [_ E]. rewrite Nat.eqb_refl in E. discriminate.
Qed.

(** The loop returns after the first handler that holds a dismissing
    call, with the result of the last such call of that handler; with
    no such handler it keeps waiting. *)
Lemma process_events_spec (events : list (list call)) :
  forall (d : State) (l : nat),
    _event_loop d = Some l ->
    In l (finished_slots d) ->
    exit_requested l d = false ->
    match dismissed_by events with
    | Some k =>
        exists d', process_events (run_call wm) l events d = Done tt d'
                   /\ loop_frame d d' /\ _result d' = result_code k
    | None =>
        exists d', process_events (run_call wm) l events d = Waiting d'
                   /\ loop_frame d d'
    end.
Proof.
  induction events as [| h events IH]; intros d l Hl Hslot Hflag.
  - cbn. exists d. split; [reflexivity | apply loop_frame_refl].
  - cbn [dismissed_by process_events]. unfold bind, get.
    destruct (run_handler_in_loop h d l Hl) as [d1 [Hh [Hf1 Hd1]]].
    rewrite Hh.
    assert (Hl1 : _event_loop d1 = Some l).
    { destruct Hf1 as [E _]. congruence. }
    assert (Hs : finished_slots d1 = finished_slots d).
    { destruct Hf1 as [_ [_ [_ [_ [E _]]]]]. exact E. }
    destruct (last_dismissal h) as [k |].
    + destruct Hd1 as [Hr Hx].
      assert (Hq : exit_requested l d1 = true).
      { apply mem_In. apply Hx. exact Hslot. }
      rewrite Hq. exists d1. auto.
    + destruct Hd1 as [Hr He].
      assert (Hq : exit_requested l d1 = false).
      { unfold exit_requested in *. rewrite He. exact Hflag. }
      rewrite Hq.
      specialize (IH d1 l Hl1).
      rewrite Hs in IH. specialize (IH Hslot Hq).
      destruct (dismissed_by events) as [k |].
      * destruct IH as [d' [Hp [Hf2 Hr2]]]. exists d'.
        split; [exact Hp |]. split; [eapply loop_frame_trans; eauto | exact Hr2].
      * destruct IH as [d' [Hp Hf2]]. exists d'.
        split; [exact Hp | eapply loop_frame_trans; eauto].
Qed.

End Loop.


Section Exec.

Variable wm : wm_call -> Toolkit -> Toolkit.

Lemma exec_unfold (events : list (list call)) (d : State) :
  _event_loop d = None ->
  exec wm events d
  = match process_events (run_call wm) (event_loops d) events
            (loop_enter (event_loops d) (before_loop wm d)) with
    | Done _ d2 => Done (_result (after_loop wm (loop_leave d2)))
                        (after_loop wm (loop_leave d2))
    | Waiting d2 => Waiting d2
    end.
Proof.
  intros Hl.
  unfold exec, exec_with, QEventLoop_exec, before_loop, after_loop,
    bind, get, when, act, ret, new_QEventLoop_M.
  rewrite Hl. destruct (has_parent d) eqn:Hp; cbn.
  - destruct (process_events _ _ _ _) as [[] d2 | d2]; [| reflexivity].
    cbn. destruct (has_parent (loop_leave d2)); cbn;
      destruct (_previous_focus d2); reflexivity.
  - destruct (process_events _ _ _ _) as [[] d2 | d2]; [| reflexivity].
    cbn. destruct (has_parent (loop_leave d2)); cbn;
      destruct (_previous_focus d2); reflexivity.
Qed.

Lemma before_loop_facts (d : State) :
  let l := event_loops d in
  let d0 := loop_enter l (before_loop wm d) in
  _event_loop d0 = Some l
  /\ In l (finished_slots d0)
  /\ exit_requested l d0 = false
  /\ _previous_focus d0 = focus_at_snapshot wm d
  /\ has_parent d0 = has_parent d
  /\ running d0 = l :: running d
  /\ peak_running d0 = Nat.max (peak_running d) (S (List.length (running d))).
Proof.
  cbv zeta. unfold before_loop, focus_at_snapshot, has_parent.
  destruct (_parent d) eqn:Hp; cbn; rewrite ?Hp;
    repeat split; try reflexivity; try (left; reflexivity);
    apply mem_remove_all.
Qed.

Lemma after_loop_facts (d : State) :
  let d' := after_loop wm d in
  _event_loop d' = None
  /\ _result d' = _result d
  /\ running d' = running d
  /\ peak_running d' = peak_running d
  /\ (has_parent d = true -> _parent d' = Some (mkParent true))
  /\ (has_parent d = false -> _parent d' = None)
  /\ (forall w, _previous_focus d = Some w ->
                focusable (tk d') w -> focusWidget (tk d') = Some w).
Proof.
  cbv zeta. unfold after_loop.
  set (d1 := if has_parent d
             then parent_activateWindow wm (parent_setEnabled wm true d)
             else d).
  assert (H1 : _previous_focus d1 = _previous_focus d
               /\ _result d1 = _result d
               /\ running d1 = running d
               /\ peak_running d1 = peak_running d
               /\ (has_parent d = true -> _parent d1 = Some (mkParent true))
               /\ (has_parent d = false -> _parent d1 = None)).
  { unfold d1, has_parent. destruct (_parent d) eqn:Hp; cbn; rewrite ?Hp;
      repeat split; intros; try discriminate; reflexivity. }
  destruct H1 as [P1 [P2 [P3 [P4 [P5 P6]]]]]. rewrite P1.
  destruct (_previous_focus d) as [w0 |].
  - destruct (setFocus_shape w0 Qt.OtherFocusReason d1) as [t Ht].
    rewrite Ht. cbn. repeat split; auto.
    intros w Hw Hfoc. injection Hw as <-.
    assert (E : tk (setFocus w0 Qt.OtherFocusReason d1) = t)
      by (rewrite Ht; reflexivity).
    rewrite <- E in *.
    destruct (setFocus_outcome w0 Qt.OtherFocusReason d1) as [[_ Hf] | [Hn He]].
    + exact Hf.
    + rewrite He in Hfoc. contradiction.
  - cbn. repeat split; auto. intros w Hw. discriminate.
Qed.

Lemma after_loop_previous_focus (d : State) :
  _previous_focus (after_loop wm d) = _previous_focus d.
Proof.
  unfold after_loop.
  set (d1 := if has_parent d
             then parent_activateWindow wm (parent_setEnabled wm true d)
             else d).
  assert (H1 : _previous_focus d1 = _previous_focus d).
  { unfold d1. destruct (has_parent d); reflexivity. }
  rewrite H1. destruct (_previous_focus d) as [w |] eqn:Hpf.
  - destruct (setFocus_shape w Qt.OtherFocusReason d1) as [t Ht].
    rewrite Ht. cbn. exact H1.
  - cbn. exact H1.
Qed.

(** [exec] on a dialog with no loop running: it returns when and only
    when the events hold a dismissing call. *)
Lemma exec_idle (events : list (list call)) (d : State) :
  _event_loop d = None ->
  match dismissed_by events with
  | Some k =>
      exists d',
        exec wm events d = Done (result_code k) d'
        /\ _event_loop d' = None
        /\ running d' = running d
        /\ peak_running d'
           = Nat.max (peak_running d) (S (List.length (running d)))
        /\ (has_parent d = true -> _parent d' = Some (mkParent true))
        /\ (forall w, focus_at_snapshot wm d = Some w ->
                      focusable (tk d') w ->
                      focusWidget (tk d') = Some w)
        /\ _previous_focus d' = focus_at_snapshot wm d
  | None =>
      exists d',
        exec wm events d = Waiting d'
        /\ _event_loop d' = Some (event_loops d)
        /\ running d' = event_loops d :: running d
        /\ peak_running d'
           = Nat.max (peak_running d) (S (List.length (running d)))
  end.
Proof.
  intros Hl. rewrite (exec_unfold events d Hl).
  destruct (before_loop_facts d) as [B1 [B2 [B3 [B4 [B5 [B6 B7]]]]]].
  cbv zeta in *.
  pose proof (process_events_spec wm events _ _ B1 B2 B3) as HP.
  destruct (dismissed_by events) as [k |].
  - destruct HP as [d2 [Hrun [[F1 [F2 [F3 [F4 [F5 [F6 F7]]]]]] Hres]]].
    rewrite Hrun.
    destruct (after_loop_facts (loop_leave d2))
      as [A1 [A2 [A3 [A4 [A5 [A6 A7]]]]]].
    cbv zeta in *.
    exists (after_loop wm (loop_leave d2)).
    split; [rewrite A2; cbn; rewrite Hres; reflexivity |].
    split; [exact A1 |].
    split; [rewrite A3; cbn; rewrite F6, B6; reflexivity |].
    split; [rewrite A4; cbn; rewrite F7, B7; reflexivity |].
    split.
    + intros Hp. apply A5. change (has_parent (loop_leave d2)) with (has_parent d2).
      congruence.
    + split.
      * intros w Hw Hfoc. apply A7; [| exact Hfoc].
        change (_previous_focus (loop_leave d2)) with (_previous_focus d2).
        congruence.
      * rewrite (after_loop_previous_focus (loop_leave d2)).
        change (_previous_focus (loop_leave d2)) with (_previous_focus d2).
        congruence.
  - destruct HP as [d2 [Hrun [F1 [F2 [F3 [F4 [F5 [F6 F7]]]]]]]].
    rewrite Hrun. exists d2.
    split; [reflexivity |]. split; [congruence |].
    split; congruence.
Qed.

(** Every call made while no loop is running keeps the dialog idle
    when it returns; it fails to return only inside the single loop
    of an [exec]. *)
Lemma run_call_idle (c : call) (d : State) :
  idle d ->
  match run_call wm c d with
  | Done _ d' => idle d'
  | Waiting d' => List.length (running d') = 1%nat /\ peak_running d' = 1%nat
  end.
Proof.
  intros [Hl [Hr Hp]].
  assert (Hmax : Nat.max (peak_running d) (S (List.length (running d))) = 1%nat).
  { rewrite Hr. cbn [List.length]. lia. }
  destruct c as [ | | | key m | events | w | b ]; cbn [run_call].
  - unfold idle. cbn. auto.
  - unfold idle. cbn. auto.
  - unfold idle. cbn. auto.
  - destruct (handled_keyPress key m d) as [t Ht].
    unfold act. rewrite Ht. unfold idle. cbn. auto.
  - unfold bind. fold (exec wm events).
    pose proof (exec_idle events d Hl) as HE.
    destruct (dismissed_by events) as [k |].
    + destruct HE as [d' [Hrun [E1 [E2 [E3 _]]]]]. rewrite Hrun.
      rewrite Hmax in E3. unfold ret, idle. rewrite E1, E2, E3, Hr. auto.
    + destruct HE as [d' [Hrun [E1 [E2 E3]]]]. rewrite Hrun.
      rewrite Hmax in E3. rewrite E2, E3, Hr. auto.
  - unfold idle. cbn. auto.
  - unfold act, idle. destruct (_parent d); cbn; auto.
Qed.

Lemma run_idle (program : list call) :
  forall d : State,
    idle d ->
    (List.length (running (final (run wm program d))) <= 1)%nat
    /\ (peak_running (final (run wm program d)) <= 1)%nat.
Proof.
  unfold run.
  induction program as [| c program IH]; intros d Hd.
  - destruct Hd as [_ [Hr Hp]]. cbn. rewrite Hr. cbn. lia.
  - cbn [run_handler]. unfold bind.
    pose proof (run_call_idle c d Hd) as Hc.
    destruct (run_call wm c d) as [[] d1 | d1].
    + apply IH. exact Hc.
    + cbn [final]. lia.
Qed.

End Exec.


(** ** Results on [exec] *)

Lemma close_is_reject (wm : wm_call -> Toolkit -> Toolkit) (d : State) :
  close wm d = reject wm d.
Proof. reflexivity. Qed.

(** C1.  For a dialog with no run in progress, fed any events: when
    the dismissing call is [accept], [exec] returns ACCEPTED, which is
    1; when it is [reject], or the close of the window, [exec] returns
    REJECTED, which is 0; and closing the window leaves the dialog in
    the state that [reject] leaves it in. *)
Theorem exec_result_by_dismissal
        (wm : wm_call -> Toolkit -> Toolkit)
        (events : list (list call)) (d : State) :
  _event_loop d = None ->
  (dismissed_by events = Some ByAccept ->
     exists d', exec wm events d = Done DialogCode.ACCEPTED d')
  /\ (dismissed_by events = Some ByReject ->
        exists d', exec wm events d = Done DialogCode.REJECTED d')
  /\ (dismissed_by events = Some ByClose ->
        exists d', exec wm events d = Done DialogCode.REJECTED d')
  /\ DialogCode.ACCEPTED = 1
  /\ DialogCode.REJECTED = 0
  /\ (forall d0, close wm d0 = reject wm d0).
Proof.
  intros Hl. pose proof (exec_idle wm events d Hl) as H.
  repeat split; try (intros Hk; rewrite Hk in H;
                     destruct H as [d' [Hrun _]]; exists d'; exact Hrun).
Qed.

Lemma exec_result_by_dismissal_witness :
  (exists d', exec still [[KeyPress Qt.Key_Tab Qt.NoModifier]; [Accept]]
                   (sample_dialog true None) = Done 1 d')
  /\ (exists d', exec still [[Close]] (sample_dialog true None) = Done 0 d').
Proof.
  destruct (exec_result_by_dismissal still
              [[KeyPress Qt.Key_Tab Qt.NoModifier]; [Accept]]
              (sample_dialog true None) eq_refl) as [Ha _].
  destruct (exec_result_by_dismissal still [[Close]]
              (sample_dialog true None) eq_refl) as [_ [_ [Hc _]]].
  split; [exact (Ha eq_refl) | exact (Hc eq_refl)].
Defined.

(** [exec] returns only through a dismissing call: without one it stays
    in its nested loop. *)
Lemma exec_waits_until_dismissed
      (wm : wm_call -> Toolkit -> Toolkit)
      (events : list (list call)) (d : State) :
  _event_loop d = None ->
  dismissed_by events = None ->
  exists d', exec wm events d = Waiting d'
             /\ _event_loop d' = Some (event_loops d).
Proof.
  intros Hl Hk. pose proof (exec_idle wm events d Hl) as H.
  rewrite Hk in H. destruct H as [d' [Hrun [He _]]]. exists d'. auto.
Qed.

(** C2.  [exec] on a dialog whose loop is running returns the stored
    result at once and leaves the state as it is, so no loop is
    created or entered; and whatever calls are made on a new dialog,
    re-entrant ones included, never more than one nested loop of the
    dialog is running. *)
Theorem exec_reentrant_single_loop (wm : wm_call -> Toolkit -> Toolkit) :
  (forall (events : list (list call)) (d : State) (l : nat),
      _event_loop d = Some l -> exec wm events d = Done (_result d) d)
  /\ (forall (parent : option ParentWindow) (t : Toolkit) (program : list call),
        let s := final (run wm program (__init__ parent t)) in
        (List.length (running s) <= 1)%nat /\ (peak_running s <= 1)%nat).
Proof.
  split.
  - intros events d l Hl. unfold exec, exec_with, bind, get. rewrite Hl.
    reflexivity.
  - intros parent t program. cbv zeta. apply run_idle.
    unfold idle, __init__. cbn. auto.
Qed.

Lemma exec_reentrant_single_loop_witness :
  let d := final (exec still [[KeyPress Qt.Key_Tab Qt.NoModifier]]
                       (sample_dialog true None)) in
  exec still [[Accept]] d = Done (_result d) d.
Proof.
  cbv zeta.
  apply (proj1 (exec_reentrant_single_loop still) [[Accept]] _ 0%nat).
  reflexivity.
Defined.




(** The focus snapshot is taken once the parent is disabled: under a
    window system that drops the focus at that moment nothing is
    recorded, and the widget focused before [exec] is not focused after. *)
Lemma focus_not_back_when_disabling_drops_it :
  let d := sample_dialog true (Some 5%nat) in
  let d' := final (exec drops_focus [[Accept]] d) in
  focusWidget (tk d) = Some 5%nat
  /\ _previous_focus d' = None
  /\ focusWidget (tk d') = None.
Proof. vm_compute. split; [reflexivity | split; reflexivity]. Qed.

Lemma sample_candidates (b : bool) (f : option widget) :
  focus_candidates (sample_dialog b f)
  = [mkChild 10%nat true Qt.StrongFocus; mkChild 13%nat true Qt.TabFocus].
Proof. reflexivity. Qed.

Lemma sample_candidates_distinct (b : bool) (f : option widget) :
  NoDup (ids (focus_candidates (sample_dialog b f))).
Proof.
  rewrite sample_candidates. cbn.
  constructor; [| constructor; [| constructor]].
  - intros [H | []]. discriminate.
  - intros [].
Defined.

Lemma sample_candidates_focusable (b : bool) (f : option widget) :
  candidates_focusable (sample_dialog b f).
Proof. intros c _. split; reflexivity. Defined.

(** C7.  The code does not do what the claim says where a candidate
    cannot take the focus.  A dialog without a parent has the visible,
    focus-accepting descendants 10, 13 and 14, in this order, all in
    the active window; 14 is disabled; the focus is on 10.  Shift+Tab
    calls [setFocus] on 14, which does nothing: the focus stays on 10
    and reaches neither 14 nor 13.  Tab moves the focus to 13, and
    there it stays under every further Tab: after two and after three
    presses it is on 13, not back on 10. *)
Theorem tab_cycle_stalls_at_disabled_candidate :
  let d := dialog_with_disabled_candidate (Some 10%nat) in
  let focus_after (r : pyresult State) :=
    pybind r (fun d' => Ok (focusWidget (tk d'))) in
  ids (focus_candidates d) = [10; 13; 14]%nat
  /\ focus_after (press_tabs [Qt.ShiftModifier] d) = Ok (Some 10%nat)
  /\ focus_after (press_tabs [Qt.NoModifier] d) = Ok (Some 13%nat)
  /\ focus_after (press_tabs [Qt.NoModifier; Qt.NoModifier] d)
     = Ok (Some 13%nat)
  /\ focus_after (press_tabs [Qt.NoModifier; Qt.NoModifier; Qt.NoModifier] d)
     = Ok (Some 13%nat).
Proof. vm_compute. repeat split; reflexivity. Qed.


End DialogFacts.

(** * Further properties of the frameless window *)

Module WindowMore.

Import Window Props MoreProps WindowFacts.

Lemma edges_at_range (width height x y : Z) :
  0 <= edges_at width height x y <= 15.
Proof.
  rewrite edges_at_near.
  destruct (near width height x y) as [[[l r] t] b].
  destruct l, r, t, b; vm_compute; split; discriminate.
Qed.

Lemma deliver_edges_bounded (w : State) (e : event) :
  0 <= _resize_edges w <= 15 ->
  Forall resize_well_formed (trace w) ->
  0 <= _resize_edges (deliver w e) <= 15
  /\ Forall resize_well_formed (trace (deliver w e)).
Proof.
  intros Hr Ht. destruct e as [x y | button | | width height | ]; cbn [deliver].
  - unfold mouseMoveEvent. destruct (isMaximized w).
    + cbn. auto.
    + cbn. split; [apply edges_at_range | exact Ht].
  - unfold mousePressEvent.
    destruct (button =? Qt.LeftButton); cbn [andb];
      [| cbn; split; [exact Hr | constructor; [exact I | exact Ht]]].
    destruct (Z.eqb_spec (_resize_edges w) 0) as [E | E]; cbn [andb negb];
      [cbn; split; [exact Hr | constructor; [exact I | exact Ht]] |].
    destruct (isMaximized w); cbn.
    + split; [exact Hr | constructor; [exact I | exact Ht]].
    + destruct (windowHandle w); cbn.
      * split; [exact Hr | constructor; [cbn; lia | exact Ht]].
      * auto.
  - cbn. auto.
  - cbn. auto.
  - cbn. auto.
Qed.

(** X1.  Whatever events reach a new window, its stored edge set is a
    set of edges (a value from 0 to 15), and every system resize it has
    started was started with a non-empty set of edges. *)
Theorem edges_always_bounded (events : list event) (width height : Z) :
  let w := deliver_all events (fresh_window width height) in
  0 <= _resize_edges w <= 15 /\ Forall resize_well_formed (trace w).
Proof.
  cbv zeta. unfold deliver_all.
  assert (H : forall evs w,
             0 <= _resize_edges w <= 15 ->
             Forall resize_well_formed (trace w) ->
             0 <= _resize_edges (fold_left deliver evs w) <= 15
             /\ Forall resize_well_formed (trace (fold_left deliver evs w))).
  { induction evs as [| e evs IH]; intros w Hr Ht; cbn [fold_left].
    - auto.
    - destruct (deliver_edges_bounded w e Hr Ht) as [Hr' Ht'].
      apply IH; assumption. }
  apply H.
  - cbn. lia.
  - cbn. constructor.
Qed.

Lemma moves_while_maximized (positions : list (Z * Z)) :
  forall w : State,
    isMaximized w = true ->
    isMaximized (deliver_all (pointer_moves positions) w) = true
    /\ _resize_edges (deliver_all (pointer_moves positions) w) = _resize_edges w
    /\ windowHandle (deliver_all (pointer_moves positions) w) = windowHandle w.
Proof.
  unfold deliver_all.
  induction positions as [| p positions IH]; intros w Hm; cbn.
  - auto.
  - assert (Hstep : mouseMoveEvent (fst p, snd p) w = unsetCursor w).
    { unfold mouseMoveEvent. rewrite Hm. reflexivity. }
    rewrite Hstep. destruct (IH (unsetCursor w) Hm) as [H1 [H2 H3]]. auto.
Qed.

(** X2.  An edge set stored before the window was maximized survives
    every pointer move made while it is maximized; once the window,
    which has a native window, is restored from the title bar, a left
    press starts the system resize with that old edge set, wherever the
    pointer has been in between. *)
Theorem stale_edges_resize_after_restore
        (w : State) (positions : list (Z * Z)) :
  isMaximized w = true ->
  _resize_edges w <> 0 ->
  windowHandle w = true ->
  let w1 := deliver_all (pointer_moves positions) w in
  let w2 := toggle_maximize w1 in
  mousePressEvent Qt.LeftButton w2
  = Ok (log (StartSystemResize (_resize_edges w)) w2, true).
Proof.
  intros Hm He Hh. cbv zeta.
  destruct (moves_while_maximized positions w Hm) as [Hm1 [He1 Hh1]].
  unfold mousePressEvent, toggle_maximize. rewrite Hm1.
  cbn [_resize_edges isMaximized windowHandle set_maximized negb andb].
  rewrite He1, Hh1, Hh. rewrite Z.eqb_refl.
  destruct (Z.eqb_spec (_resize_edges w) 0) as [E | E]; [contradiction |].
  reflexivity.
Qed.

Lemma stale_edges_resize_after_restore_witness :
  let w := set_maximized true
             (set_resize_edges Qt.LeftEdge (shown_window 1100 700)) in
  let w2 := toggle_maximize
              (deliver_all (pointer_moves [(500, 300); (600, 350)]) w) in
  mousePressEvent Qt.LeftButton w2
  = Ok (log (StartSystemResize Qt.LeftEdge) w2, true).
Proof.
  cbv zeta.
  apply (stale_edges_resize_after_restore
           (set_maximized true
              (set_resize_edges Qt.LeftEdge (shown_window 1100 700)))
           [(500, 300); (600, 350)]).
  - reflexivity.
  - discriminate.
  - reflexivity.
Defined.

(** X3.  After a pointer move on a window that is not maximized and has
    a native window, a cursor is set only where a left press starts a
    resize; on a window more than 16 px wide and more than 16 px high
    the two coincide: no cursor is set exactly when the stored edge set
    is empty. *)
Theorem cursor_announces_resize (w : State) (x y : Z) :
  isMaximized w = false ->
  windowHandle w = true ->
  let w' := mouseMoveEvent (x, y) w in
  (cursor w' <> None ->
   mousePressEvent Qt.LeftButton w'
   = Ok (log (StartSystemResize (_resize_edges w')) w', true))
  /\ (16 < rect_width w -> 16 < rect_height w ->
      (cursor w' = None <-> _resize_edges w' = 0)).
Proof.
  intros Hm Hh. cbv zeta.
  rewrite mouseMove_not_maximized by exact Hm.
  unfold mousePressEvent.
  cbn [_resize_edges cursor isMaximized windowHandle set_cursor set_resize_edges].
  rewrite Hm, Hh, edges_at_near. unfold near, RESIZE_MARGIN.
  destruct (Z.leb_spec x 8), (Z.leb_spec (rect_width w - 8) x),
    (Z.leb_spec y 8), (Z.leb_spec (rect_height w - 8) y);
    (split;
     [ intros Hc; try reflexivity; exfalso; apply Hc; reflexivity
     | intros Hw Hhh; try lia;
       split; intros Hz; try reflexivity; try discriminate ]).
Qed.

Lemma cursor_announces_resize_witness :
  let w' := mouseMoveEvent (1095, 3) (shown_window 1100 700) in
  mousePressEvent Qt.LeftButton w'
  = Ok (log (StartSystemResize (Z.lor Qt.TopEdge Qt.RightEdge)) w', true).
Proof.
  cbv zeta.
  apply (proj1 (cursor_announces_resize (shown_window 1100 700) 1095 3
                  eq_refl eq_refl)).
  discriminate.
Defined.

(** X4.  [setAppName] overwrites completely: calling it with [s1] and
    then with [s2] leaves the window as one call with [s2] does, so that
    repeating a call changes nothing; and it touches neither the resize
    state nor the trace, so no grouping identifier is applied for the
    new name. *)
Theorem setAppName_last_wins (s1 s2 : string) (w : State) :
  exists w1 w2,
    setAppName s1 w = Ok w1
    /\ setAppName s2 w1 = Ok w2
    /\ setAppName s2 w = Ok w2
    /\ trace w2 = trace w
    /\ _resize_edges w2 = _resize_edges w
    /\ isMaximized w2 = isMaximized w
    /\ cursor w2 = cursor w.
Proof.
  unfold setAppName.
  cbn [_title_bar set_app_name setWindowTitle setApplicationName
       setApplicationDisplayName].
  destruct (_title_bar w) as [[label |] |] eqn:Htb; cbn;
    eexists; eexists; (split; [reflexivity |]); cbn; rewrite ?Htb; cbn;
    repeat split; reflexivity.
Qed.

Lemma init_result (platform : string) (call : string -> pyresult Z)
      (str_lower : string -> string)
      (app_name : option string) (width height : Z) :
  let name := str_or app_name "Application" in
  let w0 := mkState name name name name 0 None false width height None []
                    false in
  __init__ platform call str_lower app_name width height
  = pybind (_apply_windows_app_id platform call str_lower w0)
           (fun w => Ok (set_title_bar None (set_resize_edges 0 w))).
Proof. reflexivity. Qed.

Lemma str_or_not_empty (x : option string) (default : string) :
  default <> "" -> str_or x default <> "".
Proof.
  intros Hd. destruct x as [[| c s] |]; cbn; try exact Hd. discriminate.
Qed.

(** X5.  The constructor, whatever [str.lower] does, when the platform
    call can only fail with exceptions derived from [Exception]: it
    returns a window whose
    application name is not empty, being the given name or
    ["Application"] when none or the empty one is given, whose window
    title and application names equal it, with an empty edge set and no
    title bar, and which has made one platform call, for the identifier
    of that name, on win32 and none elsewhere. *)
Theorem init_window (platform : string) (call : string -> pyresult Z)
        (str_lower : string -> string)
        (app_name : option string) (width height : Z) :
  (forall id e, call id = Raise e -> is_Exception e = true) ->
  exists w,
    __init__ platform call str_lower app_name width height = Ok w
    /\ _app_name w <> ""
    /\ (forall s, app_name = Some s -> s <> "" -> _app_name w = s)
    /\ (app_name = None \/ app_name = Some "" -> _app_name w = "Application")
    /\ windowTitle w = _app_name w
    /\ applicationName w = _app_name w
    /\ applicationDisplayName w = _app_name w
    /\ _resize_edges w = 0
    /\ _title_bar w = None
    /\ trace w = (if String.eqb platform "win32"
                  then [SetCurrentProcessExplicitAppUserModelID
                          (app_id_of str_lower (_app_name w))]
                  else []).
Proof.
  intros Hexc. rewrite init_result. cbv zeta.
  assert (Hname : str_or app_name "Application" <> "")
    by (apply str_or_not_empty; discriminate).
  assert (Hgiven : forall s, app_name = Some s -> s <> "" ->
                             str_or app_name "Application" = s).
  { intros s -> Hs. destruct s; [congruence | reflexivity]. }
  assert (Hdefault : app_name = None \/ app_name = Some "" ->
                     str_or app_name "Application" = "Application").
  { intros [-> | ->]; reflexivity. }
  unfold _apply_windows_app_id.
  destruct (String.eqb platform "win32"); cbn [negb].
  - cbn [_app_name].
    destruct (call (app_id_of str_lower (str_or app_name "Application")))
      as [hr | e] eqn:Hcall.
    + cbn. eexists. split; [reflexivity |]. cbn. repeat split; auto.
    + cbn. rewrite (Hexc _ e Hcall). cbn.
      eexists. split; [reflexivity |]. cbn. repeat split; auto.
  - cbn. eexists. split; [reflexivity |]. cbn. repeat split; auto.
Qed.

Lemma init_window_witness :
  exists w,
    __init__ "win32" (fun _ => Raise OSError) ascii_lower (Some "") 1100 700
    = Ok w
    /\ _app_name w = "Application".
Proof.
  destruct (init_window "win32" (fun _ => Raise OSError) ascii_lower
              (Some "") 1100 700)
    as [w [Hrun [_ [_ [Hdefault _]]]]].
  - intros id e H. injection H as <-. reflexivity.
  - exists w. split; [exact Hrun | apply Hdefault; right; reflexivity].
Defined.

(** X6.  An exception that is not derived from [Exception] is not
    caught: raised by the platform call on win32, it comes out of
    [_apply_windows_app_id] and out of the constructor, which then
    builds no window. *)
Theorem base_exception_propagates
        (call : string -> pyresult Z) (str_lower : string -> string)
        (e : exn)
        (app_name : option string) (width height : Z) (w : State) :
  is_Exception e = false ->
  (call (app_id_of str_lower (_app_name w)) = Raise e ->
   _apply_windows_app_id "win32" call str_lower w = Raise e)
  /\ (call (app_id_of str_lower (str_or app_name "Application")) = Raise e ->
      __init__ "win32" call str_lower app_name width height = Raise e).
Proof.
  intros He. split; intros Hcall.
  - unfold _apply_windows_app_id. cbn [String.eqb Ascii.eqb negb].
    rewrite Hcall. cbn. rewrite He. reflexivity.
  - rewrite init_result. cbv zeta. unfold _apply_windows_app_id.
    cbn [String.eqb Ascii.eqb negb _app_name].
    rewrite Hcall. cbn. rewrite He. reflexivity.
Qed.

Lemma base_exception_propagates_witness :
  __init__ "win32" (fun _ => Raise KeyboardInterrupt) ascii_lower
           (Some "My App") 1100 700
  = Raise KeyboardInterrupt.
Proof.
  apply (proj2 (base_exception_propagates (fun _ => Raise KeyboardInterrupt)
                  ascii_lower
                  KeyboardInterrupt (Some "My App") 1100 700
                  (fresh_window 1100 700) eq_refl)).
  reflexivity.
Defined.

Lemma lower_char_idem (c : ascii) : lower_char (lower_char c) = lower_char c.
Proof. destruct c as [[] [] [] [] [] [] [] []]; reflexivity. Qed.

Lemma lower_char_space (c : ascii) :
  Ascii.eqb (lower_char c) " " = Ascii.eqb c " ".
Proof. destruct c as [[] [] [] [] [] [] [] []]; reflexivity. Qed.

Lemma lower_char_7bit (c : ascii) :
  Nat.ltb (nat_of_ascii (lower_char c)) 128 = Nat.ltb (nat_of_ascii c) 128.
Proof. destruct c as [[] [] [] [] [] [] [] []]; reflexivity. Qed.

Lemma ascii_lower_idem (s : string) :
  ascii_lower (ascii_lower s) = ascii_lower s.
Proof.
  induction s as [| c s IH]; cbn; [reflexivity |].
  rewrite lower_char_idem, IH. reflexivity.
Qed.

Lemma ascii_lower_app (a b : string) :
  ascii_lower (a ++ b) = (ascii_lower a ++ ascii_lower b)%string.
Proof. induction a as [| c a IH]; cbn; [reflexivity | rewrite IH; reflexivity]. Qed.

Lemma ascii_lower_replace (s : string) :
  ascii_lower (replace " " "" s) = replace " " "" (ascii_lower s).
Proof.
  induction s as [| c s IH]; cbn; [reflexivity |].
  rewrite lower_char_space. destruct (Ascii.eqb c " "); cbn.
  - exact IH.
  - rewrite IH. reflexivity.
Qed.

Lemma replace_app (a b : string) :
  replace " " "" (a ++ b) = (replace " " "" a ++ replace " " "" b)%string.
Proof.
  induction a as [| c a IH]; cbn; [reflexivity |].
  destruct (Ascii.eqb c " "); cbn; rewrite IH; reflexivity.
Qed.

Lemma replace_idem (s : string) :
  replace " " "" (replace " " "" s) = replace " " "" s.
Proof.
  induction s as [| c s IH]; cbn; [reflexivity |].
  destruct (Ascii.eqb c " ") eqn:E; cbn; [exact IH |].
  rewrite E, IH. reflexivity.
Qed.

Lemma is_7bit_app (a b : string) :
  is_7bit (a ++ b) = is_7bit a && is_7bit b.
Proof.
  induction a as [| c a IH]; cbn [append is_7bit]; [reflexivity |].
  rewrite IH, andb_assoc. reflexivity.
Qed.

Lemma is_7bit_ascii_lower (s : string) : is_7bit (ascii_lower s) = is_7bit s.
Proof.
  induction s as [| c s IH]; cbn [ascii_lower is_7bit]; [reflexivity |].
  rewrite lower_char_7bit, IH. reflexivity.
Qed.

Lemma is_7bit_replace (s : string) :
  is_7bit s = true -> is_7bit (replace " " "" s) = true.
Proof.
  induction s as [| c s IH]; cbn [replace is_7bit]; [reflexivity |].
  intros H. apply andb_true_iff in H. destruct H as [Hc Hs].
  destruct (Ascii.eqb c " "); cbn [append is_7bit]; [auto |].
  rewrite Hc. cbn [andb]. auto.
Qed.

(** X7.  Where [str.lower] acts on strings of 7-bit characters by
    mapping [A]..[Z] to [a]..[z], the grouping identifier does not tell
    apart names of 7-bit characters that differ by spaces or by the case
    of their letters: a space put anywhere in the name, lowering the
    name, or normalising it beforehand all give the same identifier. *)
Theorem app_id_ignores_spaces_and_case
        (str_lower : string -> string) (a b : string) :
  lower_on_7bit str_lower ->
  is_7bit a = true ->
  is_7bit b = true ->
  app_id_of str_lower (a ++ " " ++ b) = app_id_of str_lower (a ++ b)
  /\ app_id_of str_lower (str_lower a) = app_id_of str_lower a
  /\ app_id_of str_lower (safe_name str_lower a) = app_id_of str_lower a
  /\ safe_name str_lower (a ++ b)
     = (safe_name str_lower a ++ safe_name str_lower b)%string.
Proof.
  intros Hl Ha Hb. unfold app_id_of, safe_name.
  assert (Hab : is_7bit (a ++ b) = true)
    by (rewrite is_7bit_app, Ha, Hb; reflexivity).
  assert (Hasb : is_7bit (a ++ " " ++ b) = true)
    by (rewrite !is_7bit_app, Ha, Hb; reflexivity).
  assert (Hla : is_7bit (ascii_lower a) = true)
    by (rewrite is_7bit_ascii_lower; exact Ha).
  assert (Hra : is_7bit (replace " " "" (ascii_lower a)) = true)
    by (apply is_7bit_replace; exact Hla).
  rewrite (Hl _ Ha), (Hl _ Hb), (Hl _ Hab), (Hl _ Hasb), (Hl _ Hla), (Hl _ Hra).
  repeat split.
  - rewrite !ascii_lower_app, !replace_app. reflexivity.
  - rewrite ascii_lower_idem. reflexivity.
  - rewrite ascii_lower_replace, ascii_lower_idem, replace_idem. reflexivity.
  - rewrite ascii_lower_app, replace_app. reflexivity.
Qed.

Lemma app_id_ignores_spaces_and_case_witness :
  app_id_of ascii_lower "My App" = app_id_of ascii_lower "MyApp"
  /\ app_id_of ascii_lower "myapp" = app_id_of ascii_lower "MyApp".
Proof.
  split.
  - apply (proj1 (app_id_ignores_spaces_and_case ascii_lower "My" "App"
                    (fun s _ => eq_refl) eq_refl eq_refl)).
  - apply (proj1 (proj2 (proj2 (app_id_ignores_spaces_and_case
                                  ascii_lower "MyApp" ""
                                  (fun s _ => eq_refl) eq_refl eq_refl)))).
Defined.

Lemma init_ok (platform : string) (call : string -> pyresult Z)
      (str_lower : string -> string)
      (app_name : option string) (width height : Z) :
  (forall id e, call id = Raise e -> is_Exception e = true) ->
  let name := str_or app_name "Application" in
  let w0 := mkState name name name name 0 None false width height None []
                    false in
  __init__ platform call str_lower app_name width height
  = Ok (set_title_bar None
          (set_resize_edges 0
             (if String.eqb platform "win32"
              then log (SetCurrentProcessExplicitAppUserModelID
                          (app_id_of str_lower name)) w0
              else w0))).
Proof.
  intros Hexc. rewrite init_result. cbv zeta. unfold _apply_windows_app_id.
  destruct (String.eqb platform "win32"); cbn [negb]; [| reflexivity].
  cbn [_app_name].
  destruct (call (app_id_of str_lower (str_or app_name "Application")))
    as [hr | e] eqn:Hcall.
  - reflexivity.
  - cbn. rewrite (Hexc _ e Hcall). reflexivity.
Qed.

(** X8.  Whatever [str.lower] does, a dialog built on a
    [FramelessWindow] whose application name is not empty takes over
    that name and, on win32, applies the identifier of that name; on any
    other parent, on none, or on a parent with an empty name, its name
    is ["Application"].  Its window title is that name, not the [title]
    argument, which only labels its title bar; its size is 420 x 200. *)
Theorem dialog_window_identity
        (platform : string) (call : string -> pyresult Z)
        (str_lower : string -> string)
        (parent : DialogWindow.parent_object) (title : string)
        (width height : Z) :
  (forall id e, call id = Raise e -> is_Exception e = true) ->
  exists w,
    DialogWindow.__init__ platform call str_lower parent title width height
    = Ok w
    /\ (forall pw, parent = DialogWindow.FramelessWindowParent pw ->
                   _app_name pw <> "" ->
                   _app_name w = _app_name pw
                   /\ trace w = (if String.eqb platform "win32"
                                 then [SetCurrentProcessExplicitAppUserModelID
                                         (app_id_of str_lower (_app_name pw))]
                                 else []))
    /\ ((forall pw, parent = DialogWindow.FramelessWindowParent pw ->
                    _app_name pw = "") ->
        _app_name w = "Application")
    /\ windowTitle w = _app_name w
    /\ _title_bar w = Some (TitleBar title)
    /\ rect_width w = 420
    /\ rect_height w = 200.
Proof.
  intros Hexc. unfold DialogWindow.__init__.
  rewrite (init_ok platform call str_lower _ width height Hexc).
  cbv zeta. cbn [pybind].
  eexists. split; [reflexivity |].
  destruct (String.eqb platform "win32"); cbn;
    (split; [| split; [| repeat split]]).
  - intros pw -> Hne. cbn. destruct (_app_name pw); [congruence | auto].
  - intros Hempty. destruct parent as [pw | |]; cbn; try reflexivity.
    rewrite (Hempty pw eq_refl). reflexivity.
  - intros pw -> Hne. cbn. destruct (_app_name pw); [congruence | auto].
  - intros Hempty. destruct parent as [pw | |]; cbn; try reflexivity.
    rewrite (Hempty pw eq_refl). reflexivity.
Qed.

Lemma dialog_window_identity_witness :
  exists w,
    DialogWindow.__init__ "win32" (fun _ => Ok 0) ascii_lower
      (DialogWindow.FramelessWindowParent
         (set_app_name "My App" (fresh_window 1100 700)))
      "Dialog" 640 480 = Ok w
    /\ _app_name w = "My App"
    /\ trace w = [SetCurrentProcessExplicitAppUserModelID
                    "com.projectironman.myapp"].
Proof.
  destruct (dialog_window_identity "win32" (fun _ => Ok 0) ascii_lower
              (DialogWindow.FramelessWindowParent
                 (set_app_name "My App" (fresh_window 1100 700)))
              "Dialog" 640 480)
    as [w [Hrun [Hparent _]]].
  - intros id e H. discriminate H.
  - exists w. split; [exact Hrun |].
    apply (Hparent _ eq_refl). discriminate.
Defined.


(** Once a window has a native window it keeps it under every event. *)
Lemma deliver_windowHandle (w : State) (e : event) :
  windowHandle w = true -> windowHandle (deliver w e) = true.
Proof.
  intros Hh. destruct e as [x y | button | | width height | ]; cbn [deliver].
  - unfold mouseMoveEvent. destruct (isMaximized w); cbn; exact Hh.
  - unfold mousePressEvent.
    destruct ((button =? Qt.LeftButton) && negb (_resize_edges w =? 0)
              && negb (isMaximized w)); [rewrite Hh |]; cbn; exact Hh.
  - cbn. exact Hh.
  - cbn. exact Hh.
  - reflexivity.
Qed.

Lemma deliver_all_windowHandle (events : list event) :
  forall w, windowHandle w = true ->
            windowHandle (deliver_all events w) = true.
Proof.
  unfold deliver_all.
  induction events as [| e events IH]; intros w Hh; cbn.
  - exact Hh.
  - apply IH. apply deliver_windowHandle. exact Hh.
Qed.

(** X19.  On a window that has a native window, after any events, a
    press never raises: it starts the system resize for the stored edge
    set and accepts the event exactly when the button is the left one,
    the stored edge set is not empty and the window is not maximized,
    and otherwise goes to the default handler. *)
Theorem mousePress_with_native_window
        (events : list event) (button : Z) (w : State) :
  windowHandle w = true ->
  let w1 := deliver_all events w in
  exists w' accepted,
    mousePressEvent button w1 = Ok (w', accepted)
    /\ (accepted = true <->
        button = Qt.LeftButton /\ _resize_edges w1 <> 0
        /\ isMaximized w1 = false)
    /\ w' = log (if accepted then StartSystemResize (_resize_edges w1)
                 else SuperMousePress) w1.
Proof.
  intros Hh. cbv zeta.
  pose proof (deliver_all_windowHandle events w Hh) as Hh1.
  destruct (mousePress_cases button (deliver_all events w))
    as [Hgo [_ Hnot]]. cbv zeta in Hgo, Hnot.
  destruct (Z.eq_dec button Qt.LeftButton) as [Hb | Hb];
    [destruct (Z.eq_dec (_resize_edges (deliver_all events w)) 0) as [He | He];
     [| destruct (isMaximized (deliver_all events w)) eqn:Hm] |].
  - eexists. exists false. rewrite Hnot by tauto.
    split; [reflexivity |]. split; [| reflexivity].
    split; [discriminate | tauto].
  - eexists. exists false. rewrite Hnot by (intros [_ [_ H]]; discriminate).
    split; [reflexivity |]. split; [| reflexivity].
    split; [discriminate | intros [_ [_ H]]; discriminate].
  - eexists. exists true. rewrite Hgo by auto.
    split; [reflexivity |]. split; [| reflexivity]. tauto.
  - eexists. exists false. rewrite Hnot by tauto.
    split; [reflexivity |]. split; [| reflexivity].
    split; [discriminate | tauto].
Qed.

Lemma mousePress_with_native_window_witness :
  exists w',
    mousePressEvent Qt.LeftButton
      (deliver_all [MouseMove 0 100] (shown_window 1100 700))
    = Ok (w', true).
Proof.
  destruct (mousePress_with_native_window [MouseMove 0 100] Qt.LeftButton
              (shown_window 1100 700) eq_refl)
    as [w' [accepted [Hrun [Hacc _]]]].
  exists w'. rewrite Hrun.
  assert (E : accepted = true).
  { apply Hacc. vm_compute. repeat split; discriminate. }
  rewrite E. reflexivity.
Defined.


End WindowMore.

(** * Further properties of the frameless dialog *)

Module DialogMore.

Import Dialog DialogProps DialogMoreProps DialogFacts.

Section Runs.

Variable wm : wm_call -> Toolkit -> Toolkit.

(** Inside a running loop, a dismissing call hides the dialog and any
    other call leaves its visibility alone. *)
Lemma run_call_visible (c : call) (d : State) (l : nat) :
  _event_loop d = Some l ->
  match dismissal_of c with
  | Some _ => isVisible (final (run_call wm c d)) = false
  | None => isVisible (final (run_call wm c d)) = isVisible d
  end.
Proof.
  intros Hl. destruct c as [ | | | key m | events | w | b ];
    cbn [run_call dismissal_of]; try reflexivity.
  - destruct (handled_keyPress key m d) as [t Ht].
    unfold act. rewrite Ht. reflexivity.
  - unfold bind, exec_with, bind, get. rewrite Hl. reflexivity.
  - unfold act. destruct (_parent d); reflexivity.
Qed.

Lemma run_handler_visible (h : list call) :
  forall (d : State) (l : nat),
    _event_loop d = Some l ->
    match last_dismissal h with
    | Some _ => isVisible (final (run_handler (run_call wm) h d)) = false
    | None => isVisible (final (run_handler (run_call wm) h d)) = isVisible d
    end.
Proof.
  induction h as [| c h IH]; intros d l Hl.
  - reflexivity.
  - destruct (run_call_in_loop wm c d l Hl) as [d1 [Hc [Hf1 _]]].
    assert (Hl1 : _event_loop d1 = Some l).
    { destruct Hf1 as [E _]. congruence. }
    pose proof (run_call_visible c d l Hl) as Hv. rewrite Hc in Hv. cbn [final] in Hv.
    specialize (IH d1 l Hl1).
    cbn [run_handler last_dismissal]. unfold bind. rewrite Hc.
    destruct (last_dismissal h) as [k |].
    + exact IH.
    + destruct (dismissal_of c); congruence.
Qed.

(** While no dismissing call arrives the loop keeps the stored result
    and the visibility; the call that ends it leaves the dialog hidden. *)
Lemma process_events_quiet (events : list (list call)) :
  forall (d : State) (l : nat),
    _event_loop d = Some l ->
    In l (finished_slots d) ->
    exit_requested l d = false ->
    match dismissed_by events with
    | Some _ =>
        isVisible (final (process_events (run_call wm) l events d)) = false
    | None =>
        isVisible (final (process_events (run_call wm) l events d)) = isVisible d
        /\ _result (final (process_events (run_call wm) l events d)) = _result d
    end.
Proof.
  induction events as [| h events IH]; intros d l Hl Hslot Hflag.
  - cbn. auto.
  - cbn [dismissed_by process_events]. unfold bind, get.
    destruct (run_handler_in_loop wm h d l Hl) as [d1 [Hh [Hf1 Hd1]]].
    pose proof (run_handler_visible h d l Hl) as Hv.
    rewrite Hh in Hv. cbn [final] in Hv. rewrite Hh.
    assert (Hl1 : _event_loop d1 = Some l).
    { destruct Hf1 as [E _]. congruence. }
    assert (Hs : finished_slots d1 = finished_slots d).
    { destruct Hf1 as [_ [_ [_ [_ [E _]]]]]. exact E. }
    destruct (last_dismissal h) as [k |].
    + destruct Hd1 as [Hr Hx].
      assert (Hq : exit_requested l d1 = true).
      { apply mem_In. apply Hx. exact Hslot. }
      rewrite Hq. exact Hv.
    + destruct Hd1 as [Hr He].
      assert (Hq : exit_requested l d1 = false).
      { unfold exit_requested in *. rewrite He. exact Hflag. }
      rewrite Hq.
      specialize (IH d1 l Hl1). rewrite Hs in IH. specialize (IH Hslot Hq).
      destruct (dismissed_by events) as [k |].
      * exact IH.
      * destruct IH as [IH1 IH2]. split; congruence.
Qed.

Lemma before_loop_more (d : State) :
  let l := event_loops d in
  let d0 := loop_enter l (before_loop wm d) in
  isVisible d0 = true
  /\ _result d0 = _result d
  /\ event_loops d0 = S l
  /\ finished_slots d0 = l :: finished_slots d.
Proof.
  cbv zeta. unfold before_loop, has_parent.
  destruct (_parent d); cbn; repeat split; reflexivity.
Qed.

Lemma after_loop_more (d : State) :
  let d' := after_loop wm (loop_leave d) in
  isVisible d' = isVisible d
  /\ event_loops d' = event_loops d
  /\ finished_slots d' = finished_slots d.
Proof.
  cbv zeta. unfold after_loop.
  change (has_parent (loop_leave d)) with (has_parent d).
  set (d1 := if has_parent d
             then parent_activateWindow wm (parent_setEnabled wm true
                                              (loop_leave d))
             else loop_leave d).
  assert (H1 : isVisible d1 = isVisible d
               /\ event_loops d1 = event_loops d
               /\ finished_slots d1 = finished_slots d
               /\ _previous_focus d1 = _previous_focus d).
  { unfold d1, has_parent. destruct (_parent d); cbn; auto. }
  destruct H1 as [P1 [P2 [P3 P4]]]. rewrite P4.
  destruct (_previous_focus d) as [w |].
  - destruct (setFocus_shape w Qt.OtherFocusReason d1) as [t Ht].
    rewrite Ht. cbn. auto.
  - cbn. auto.
Qed.

(** A run from start to end: what it returns and how it leaves the
    dialog, or in which state it waits. *)
Lemma exec_idle_more (events : list (list call)) (d : State) :
  _event_loop d = None ->
  match dismissed_by events with
  | Some k =>
      exists d',
        exec wm events d = Done (result_code k) d'
        /\ _event_loop d' = None
        /\ _result d' = result_code k
        /\ isVisible d' = false
        /\ event_loops d' = S (event_loops d)
        /\ finished_slots d' = event_loops d :: finished_slots d
        /\ (_parent d = None -> _parent d' = None)
        /\ _previous_focus d' = focus_at_snapshot wm d
        /\ (forall w, focus_at_snapshot wm d = Some w ->
                      focusable (tk d') w ->
                      focusWidget (tk d') = Some w)
  | None =>
      exists d',
        exec wm events d = Waiting d'
        /\ _event_loop d' = Some (event_loops d)
        /\ _result d' = _result d
        /\ isVisible d' = true
        /\ event_loops d' = S (event_loops d)
        /\ finished_slots d' = event_loops d :: finished_slots d
  end.
Proof.
  intros Hl. rewrite (exec_unfold wm events d Hl).
  destruct (before_loop_facts wm d) as [B1 [B2 [B3 [B4 [B5 [B6 B7]]]]]].
  destruct (before_loop_more d) as [M1 [M2 [M3 M4]]].
  cbv zeta in *.
  pose proof (process_events_spec wm events _ _ B1 B2 B3) as HP.
  pose proof (process_events_quiet events _ _ B1 B2 B3) as HQ.
  destruct (dismissed_by events) as [k |].
  - destruct HP as [d2 [Hrun [[F1 [F2 [F3 [F4 [F5 [F6 F7]]]]]] Hres]]].
    rewrite Hrun in HQ |- *. cbn [final] in HQ.
    destruct (after_loop_facts wm (loop_leave d2))
      as [A1 [A2 [A3 [A4 [A5 [A6 A7]]]]]].
    destruct (after_loop_more d2) as [N1 [N2 N3]].
    cbv zeta in *.
    exists (after_loop wm (loop_leave d2)).
    split; [rewrite A2; cbn; rewrite Hres; reflexivity |].
    split; [exact A1 |].
    split; [rewrite A2; cbn; exact Hres |].
    split; [congruence |].
    split; [congruence |].
    split; [congruence |].
    split.
    + intros Hp. apply A6.
      change (has_parent (loop_leave d2)) with (has_parent d2).
      rewrite F3, B5. unfold has_parent. rewrite Hp. reflexivity.
    + split.
      * rewrite (after_loop_previous_focus wm (loop_leave d2)).
        change (_previous_focus (loop_leave d2)) with (_previous_focus d2).
        congruence.
      * intros w Hw Hfoc. apply A7; [| exact Hfoc].
        change (_previous_focus (loop_leave d2)) with (_previous_focus d2).
        congruence.
  - destruct HP as [d2 [Hrun [F1 [F2 [F3 [F4 [F5 [F6 F7]]]]]]]].
    rewrite Hrun in HQ |- *. cbn [final] in HQ. destruct HQ as [Q1 Q2].
    exists d2. split; [reflexivity |].
    split; [congruence |]. split; [congruence |]. split; [congruence |].
    split; congruence.
Qed.

Lemma run_call_parent (c : call) (d : State) (l : nat) :
  _event_loop d = Some l ->
  not_parent_switch c ->
  _parent (final (run_call wm c d)) = _parent d.
Proof.
  intros Hl Hc. destruct c as [ | | | key m | events | w | b ];
    cbn [run_call]; try reflexivity.
  - destruct (handled_keyPress key m d) as [t Ht].
    unfold act. rewrite Ht. reflexivity.
  - unfold bind, exec_with, bind, get. rewrite Hl. reflexivity.
  - contradiction.
Qed.

Lemma run_handler_parent (h : list call) :
  forall (d : State) (l : nat),
    _event_loop d = Some l ->
    Forall not_parent_switch h ->
    _parent (final (run_handler (run_call wm) h d)) = _parent d.
Proof.
  induction h as [| c h IH]; intros d l Hl Hh.
  - reflexivity.
  - inversion Hh as [| ? ? Hc Hh']; subst.
    destruct (run_call_in_loop wm c d l Hl) as [d1 [Hrun [Hf1 _]]].
    assert (Hl1 : _event_loop d1 = Some l).
    { destruct Hf1 as [E _]. congruence. }
    pose proof (run_call_parent c d l Hl Hc) as Hp.
    rewrite Hrun in Hp. cbn [final] in Hp.
    cbn [run_handler]. unfold bind. rewrite Hrun.
    rewrite (IH d1 l Hl1 Hh'). exact Hp.
Qed.

Lemma process_events_parent (events : list (list call)) :
  forall (d : State) (l : nat),
    _event_loop d = Some l ->
    no_parent_switch events ->
    _parent (final (process_events (run_call wm) l events d)) = _parent d.
Proof.
  induction events as [| h events IH]; intros d l Hl Hev.
  - reflexivity.
  - inversion Hev as [| ? ? Hh Hev']; subst.
    destruct (run_handler_in_loop wm h d l Hl) as [d1 [Hrun [Hf1 _]]].
    assert (Hl1 : _event_loop d1 = Some l).
    { destruct Hf1 as [E _]. congruence. }
    pose proof (run_handler_parent h d l Hl Hh) as Hp.
    rewrite Hrun in Hp. cbn [final] in Hp.
    cbn [process_events]. unfold bind, get. rewrite Hrun.
    destruct (exit_requested l d1).
    + exact Hp.
    + rewrite (IH d1 l Hl1 Hev'). exact Hp.
Qed.

(** X9.  [exec] returns through [accept], [reject] or the close of the
    window and through nothing else: fed events that hold none of them,
    be they key presses, focus changes, re-entrant calls of [exec] or
    the parent being switched, it keeps waiting in its loop, with the
    dialog shown. *)
Theorem exec_waits_for_dismissal (events : list (list call)) (d : State) :
  _event_loop d = None ->
  dismissed_by events = None ->
  exists d',
    exec wm events d = Waiting d'
    /\ _event_loop d' = Some (event_loops d)
    /\ isVisible d' = true.
Proof.
  intros Hl Hk. pose proof (exec_idle_more events d Hl) as H.
  rewrite Hk in H. destruct H as [d' [Hrun [He [_ [Hv _]]]]].
  exists d'. auto.
Qed.

(** X10.  A re-entrant [exec] made before the run is dismissed returns
    the result that was stored when the run began: the result of the
    run before, or REJECTED on a dialog that has never been run. *)
Theorem reentrant_exec_returns_stale_result
        (events : list (list call)) (d : State) :
  _event_loop d = None ->
  dismissed_by events = None ->
  exists d',
    exec wm events d = Waiting d'
    /\ forall events', exec wm events' d' = Done (_result d) d'.
Proof.
  intros Hl Hk. pose proof (exec_idle_more events d Hl) as H.
  rewrite Hk in H. destruct H as [d' [Hrun [He [Hr _]]]].
  exists d'. split; [exact Hrun |].
  intros events'. unfold exec, exec_with, bind, get. rewrite He, Hr.
  reflexivity.
Qed.

(** X11.  A dismissed run leaves the dialog hidden and with no loop
    running, so that it can be run again; the second run returns the
    code of its own dismissal, whatever the first returned. *)
Theorem exec_twice (events1 events2 : list (list call)) (d : State)
        (k1 k2 : dismissal) :
  _event_loop d = None ->
  dismissed_by events1 = Some k1 ->
  dismissed_by events2 = Some k2 ->
  exists d1 d2,
    exec wm events1 d = Done (result_code k1) d1
    /\ _event_loop d1 = None
    /\ isVisible d1 = false
    /\ exec wm events2 d1 = Done (result_code k2) d2
    /\ _result d2 = result_code k2.
Proof.
  intros Hl H1 H2.
  pose proof (exec_idle_more events1 d Hl) as E1. rewrite H1 in E1.
  destruct E1 as [d1 [Hrun1 [Hl1 [_ [Hv1 _]]]]].
  pose proof (exec_idle_more events2 d1 Hl1) as E2. rewrite H2 in E2.
  destruct E2 as [d2 [Hrun2 [_ [Hr2 _]]]].
  exists d1, d2. auto.
Qed.

(** X12.  Every run that starts a loop constructs exactly one
    [QEventLoop] and connects [finished] to it once, whether it has
    returned or is still waiting; [exec] never disconnects, so the
    connections of earlier runs stay. *)
Theorem exec_one_loop_per_run (events : list (list call)) (d : State) :
  _event_loop d = None ->
  let d' := final (exec wm events d) in
  event_loops d' = S (event_loops d)
  /\ finished_slots d' = event_loops d :: finished_slots d.
Proof.
  intros Hl. cbv zeta. pose proof (exec_idle_more events d Hl) as H.
  destruct (dismissed_by events) as [k |].
  - destruct H as [d' [Hrun [_ [_ [_ [He [Hs _]]]]]]]. rewrite Hrun. auto.
  - destruct H as [d' [Hrun [_ [_ [_ [He Hs]]]]]]. rewrite Hrun. auto.
Qed.

(** X13.  Without a parent window, a dismissed run has recorded the
    widget that had the focus when [exec] was called and has called
    [setFocus] on it: that widget has the focus on return if it is then
    enabled and in the active window, whatever the window system and
    the handlers did to the focus in between. *)
Theorem exec_without_parent_restores_focus
        (events : list (list call)) (d : State) (k : dismissal) (w : widget) :
  _event_loop d = None ->
  _parent d = None ->
  focusWidget (tk d) = Some w ->
  dismissed_by events = Some k ->
  exists d',
    exec wm events d = Done (result_code k) d'
    /\ _previous_focus d' = Some w
    /\ (focusable (tk d') w -> focusWidget (tk d') = Some w)
    /\ _parent d' = None.
Proof.
  intros Hl Hp Hw Hk. pose proof (exec_idle_more events d Hl) as H.
  rewrite Hk in H.
  destruct H as [d' [Hrun [_ [_ [_ [_ [_ [Hpar [Hprev Hfoc]]]]]]]]].
  assert (Hsnap : focus_at_snapshot wm d = Some w).
  { unfold focus_at_snapshot, has_parent. rewrite Hp. exact Hw. }
  exists d'. split; [exact Hrun |].
  split; [congruence |].
  split; [exact (Hfoc w Hsnap) | exact (Hpar Hp)].
Qed.

(** X14.  [accept], [reject] or the close of the window, when no run is
    in progress, store their result and hide the dialog but dismiss
    nothing in advance: the run that follows still waits for a
    dismissing call of its own and returns the code of that call. *)
Theorem dismissal_before_exec_is_not_kept
        (events : list (list call)) (d : State) (c : call) (k : dismissal) :
  _event_loop d = None ->
  dismissal_of c = Some k ->
  exists d1,
    run_call wm c d = Done tt d1
    /\ _event_loop d1 = None
    /\ _result d1 = result_code k
    /\ isVisible d1 = false
    /\ match dismissed_by events with
       | Some k' => exists d', exec wm events d1 = Done (result_code k') d'
       | None => exists d', exec wm events d1 = Waiting d'
       end.
Proof.
  intros Hl Hc.
  assert (H : exists d1, run_call wm c d = Done tt d1
                         /\ _event_loop d1 = None
                         /\ _result d1 = result_code k
                         /\ isVisible d1 = false).
  { destruct c; cbn in Hc; try discriminate; injection Hc as <-;
      eexists; (split; [reflexivity |]); cbn; auto. }
  destruct H as [d1 [Hrun [Hl1 [Hr1 Hv1]]]].
  exists d1. repeat (split; [assumption |]).
  pose proof (exec_idle_more events d1 Hl1) as E.
  destruct (dismissed_by events) as [k' |].
  - destruct E as [d' [Hrun' _]]. exists d'. exact Hrun'.
  - destruct E as [d' [Hrun' _]]. exists d'. exact Hrun'.
Qed.

(** X15.  While a run on a dialog with a parent window waits, the
    parent is disabled, whatever it was before, unless other code
    switches it. *)
Theorem parent_disabled_while_waiting
        (events : list (list call)) (d : State) (p : ParentWindow) :
  _event_loop d = None ->
  _parent d = Some p ->
  dismissed_by events = None ->
  no_parent_switch events ->
  exists d',
    exec wm events d = Waiting d'
    /\ _parent d' = Some (mkParent false).
Proof.
  intros Hl Hp Hk Hev.
  pose proof (exec_idle_more events d Hl) as H. rewrite Hk in H.
  destruct H as [d' [Hrun _]]. exists d'. split; [exact Hrun |].
  rewrite (exec_unfold wm events d Hl) in Hrun.
  destruct (before_loop_facts wm d) as [B1 _]. cbv zeta in B1.
  pose proof (process_events_parent events _ _ B1 Hev) as HP.
  destruct (process_events (run_call wm) (event_loops d) events
              (loop_enter (event_loops d) (before_loop wm d)))
    as [[] d2 | d2]; [discriminate |].
  injection Hrun as <-. cbn [final] in HP. rewrite HP.
  unfold before_loop, has_parent. rewrite Hp. reflexivity.
Qed.


End Runs.

Lemma exec_waits_for_dismissal_witness :
  exists d',
    exec still [[KeyPress Key_Escape Qt.NoModifier];
                [KeyPress Qt.Key_Return Qt.NoModifier; Exec [[Accept]]]]
         (sample_dialog true None) = Waiting d'
    /\ isVisible d' = true.
Proof.
  destruct (exec_waits_for_dismissal still
              [[KeyPress Key_Escape Qt.NoModifier];
               [KeyPress Qt.Key_Return Qt.NoModifier; Exec [[Accept]]]]
              (sample_dialog true None) eq_refl eq_refl)
    as [d' [Hrun [_ Hv]]].
  exists d'. split; [exact Hrun | exact Hv].
Defined.

Lemma reentrant_exec_returns_stale_result_witness :
  exists d',
    exec still [[FocusMoved None]] (accept still (sample_dialog true None))
    = Waiting d'
    /\ exec still [[Reject]] d' = Done DialogCode.ACCEPTED d'.
Proof.
  destruct (reentrant_exec_returns_stale_result still [[FocusMoved None]]
              (accept still (sample_dialog true None)) eq_refl eq_refl)
    as [d' [Hrun Hre]].
  exists d'. split; [exact Hrun | exact (Hre [[Reject]])].
Defined.

Lemma exec_twice_witness :
  exists d1 d2,
    exec still [[Accept]] (sample_dialog true None) = Done 1 d1
    /\ exec still [[Close]] d1 = Done 0 d2.
Proof.
  destruct (exec_twice still [[Accept]] [[Close]] (sample_dialog true None)
              ByAccept ByClose eq_refl eq_refl eq_refl)
    as [d1 [d2 [H1 [_ [_ [H2 _]]]]]].
  exists d1, d2. split; [exact H1 | exact H2].
Defined.

Lemma exec_one_loop_per_run_witness :
  event_loops (final (exec still [[Accept]] (sample_dialog true None))) = 1%nat.
Proof.
  apply (proj1 (exec_one_loop_per_run still [[Accept]]
                  (sample_dialog true None) eq_refl)).
Defined.

Lemma exec_without_parent_restores_focus_witness :
  exists d',
    exec drops_focus [[FocusMoved (Some 13%nat)]; [Reject]]
         (__init__ None (mkToolkit (Some 5%nat) sample_children
                                 (fun _ => true) (fun _ => true)))
    = Done 0 d'
    /\ focusWidget (tk d') = Some 5%nat.
Proof.
  destruct (exec_without_parent_restores_focus drops_focus
              [[FocusMoved (Some 13%nat)]; [Reject]]
              (__init__ None (mkToolkit (Some 5%nat) sample_children
                                 (fun _ => true) (fun _ => true)))
              ByReject 5%nat eq_refl eq_refl eq_refl eq_refl)
    as [d' [Hrun [_ [Hf _]]]].
  exists d'. split; [exact Hrun |].
  assert (E : d' = final (exec drops_focus
                            [[FocusMoved (Some 13%nat)]; [Reject]]
                            (__init__ None
                               (mkToolkit (Some 5%nat) sample_children
                                  (fun _ => true) (fun _ => true)))))
    by (rewrite Hrun; reflexivity).
  apply Hf. rewrite E. vm_compute. split; reflexivity.
Defined.

Lemma dismissal_before_exec_is_not_kept_witness :
  exists d1,
    run_call still Accept (sample_dialog true None) = Done tt d1
    /\ _result d1 = 1
    /\ exists d', exec still [[Reject]] d1 = Done 0 d'.
Proof.
  destruct (dismissal_before_exec_is_not_kept still [[Reject]]
              (sample_dialog true None) Accept ByAccept eq_refl eq_refl)
    as [d1 [Hrun [_ [Hr [_ He]]]]].
  exists d1. split; [exact Hrun |]. split; [exact Hr | exact He].
Defined.

Lemma parent_disabled_while_waiting_witness :
  exists d',
    exec still [[KeyPress Qt.Key_Tab Qt.NoModifier]] (sample_dialog true None)
    = Waiting d'
    /\ _parent d' = Some (mkParent false).
Proof.
  apply (parent_disabled_while_waiting still
           [[KeyPress Qt.Key_Tab Qt.NoModifier]] (sample_dialog true None)
           (mkParent true) eq_refl eq_refl eq_refl).
  repeat constructor.
Defined.

(** ** Focus cycling from any position *)

Lemma nth_error_distinct (ws : list Child) (i j : nat) (a b : Child) :
  nth_error ws i = Some a -> nth_error ws j = Some b -> i = j -> a = b.
Proof. intros Ha Hb ->. congruence. Qed.

(** X16.  With distinct candidates, each of them enabled and in the
    active window, and the focus on the one at position [k] of N, Tab
    moves the focus to position [k + 1] modulo N and Shift+Tab to
    position [k + N - 1] modulo N; both accept the key event. *)
Theorem tab_moves_one_position (d : State) (k : nat) (c : Child) :
  NoDup (ids (focus_candidates d)) ->
  candidates_focusable d ->
  nth_error (focus_candidates d) k = Some c ->
  focusWidget (tk d) = Some (child_id c) ->
  let N := List.length (focus_candidates d) in
  (exists d' c',
      keyPressEvent Qt.Key_Tab Qt.NoModifier d = Ok (d', true)
      /\ nth_error (focus_candidates d) ((k + 1) mod N) = Some c'
      /\ focusWidget (tk d') = Some (child_id c'))
  /\ (exists d' c',
         keyPressEvent Qt.Key_Tab Qt.ShiftModifier d = Ok (d', true)
         /\ nth_error (focus_candidates d) ((k + N - 1) mod N) = Some c'
         /\ focusWidget (tk d') = Some (child_id c')).
Proof.
  intros Hnd Hcf Hk Hfocus. cbv zeta. split.
  - destruct (focus_next_position false d k c Hnd Hcf Hk Hfocus)
      as [c' [Hk' [Hstep Hf]]].
    exists (setFocus (child_id c') Qt.TabFocusReason d), c'.
    rewrite keyPress_tab.
    change (negb (Z.land Qt.NoModifier Qt.ShiftModifier =? 0)) with false.
    rewrite Hstep. auto.
  - destruct (focus_next_position true d k c Hnd Hcf Hk Hfocus)
      as [c' [Hk' [Hstep Hf]]].
    exists (setFocus (child_id c') Qt.TabFocusReason d), c'.
    rewrite keyPress_tab.
    change (negb (Z.land Qt.ShiftModifier Qt.ShiftModifier =? 0)) with true.
    rewrite Hstep. auto.
Qed.

Lemma tab_moves_one_position_witness :
  exists d',
    keyPressEvent Qt.Key_Tab Qt.NoModifier (sample_dialog true (Some 13%nat))
    = Ok (d', true)
    /\ focusWidget (tk d') = Some 10%nat.
Proof.
  destruct (tab_moves_one_position (sample_dialog true (Some 13%nat)) 1
              (mkChild 13%nat true Qt.TabFocus)
              (sample_candidates_distinct true (Some 13%nat))
              (sample_candidates_focusable true (Some 13%nat))
              eq_refl eq_refl)
    as [[d' [c' [Hrun [Hn Hf]]]] _].
  exists d'. split; [exact Hrun |].
  rewrite Hf. injection Hn as <-. reflexivity.
Defined.

(** X17.  With distinct candidates, each of them enabled and in the
    active window, and the focus on one of them, Tab followed by
    Shift+Tab, and Shift+Tab followed by Tab, leave the focus where it
    was. *)
Theorem tab_then_back (d : State) (k : nat) (c : Child) :
  NoDup (ids (focus_candidates d)) ->
  candidates_focusable d ->
  nth_error (focus_candidates d) k = Some c ->
  focusWidget (tk d) = Some (child_id c) ->
  (exists d', press_tabs [Qt.NoModifier; Qt.ShiftModifier] d = Ok d'
              /\ focusWidget (tk d') = Some (child_id c))
  /\ (exists d', press_tabs [Qt.ShiftModifier; Qt.NoModifier] d = Ok d'
                 /\ focusWidget (tk d') = Some (child_id c)).
Proof.
  intros Hnd Hcf Hk Hfocus.
  assert (Hlt : (k < List.length (focus_candidates d))%nat).
  { apply nth_error_Some. congruence. }
  split.
  - destruct (focus_next_position false d k c Hnd Hcf Hk Hfocus)
      as [c1 [Hk1 [Hs1 Hf1]]].
    cbv zeta in Hk1.
    destruct (focus_next_position true
                (setFocus (child_id c1) Qt.TabFocusReason d)
                ((k + 1) mod List.length (focus_candidates d)) c1)
      as [c2 [Hk2 [Hs2 Hf2]]];
      [ rewrite focus_candidates_setFocus; exact Hnd
      | apply candidates_focusable_setFocus; exact Hcf
      | rewrite focus_candidates_setFocus; exact Hk1
      | exact Hf1 |].
    cbv zeta in Hk2. rewrite focus_candidates_setFocus in Hk2.
    assert (E : c2 = c).
    { eapply nth_error_distinct; [exact Hk2 | exact Hk |].
      replace ((k + 1) mod List.length (focus_candidates d)
               + List.length (focus_candidates d) - 1)%nat
        with ((k + 1) mod List.length (focus_candidates d)
              + (List.length (focus_candidates d) - 1))%nat by lia.
      rewrite Nat.Div0.add_mod_idemp_l.
      replace (k + 1 + (List.length (focus_candidates d) - 1))%nat
        with (k + 1 * List.length (focus_candidates d))%nat by lia.
      rewrite Nat.Div0.mod_add. apply Nat.mod_small. exact Hlt. }
    subst c2.
    exists (setFocus (child_id c) Qt.TabFocusReason
              (setFocus (child_id c1) Qt.TabFocusReason d)).
    cbn [press_tabs]. rewrite !keyPress_tab.
    change (negb (Z.land Qt.NoModifier Qt.ShiftModifier =? 0)) with false.
    rewrite Hs1. cbn [pybind fst]. rewrite keyPress_tab.
    change (negb (Z.land Qt.ShiftModifier Qt.ShiftModifier =? 0)) with true.
    rewrite Hs2. cbn [pybind fst]. split; [reflexivity | exact Hf2].
  - destruct (focus_next_position true d k c Hnd Hcf Hk Hfocus)
      as [c1 [Hk1 [Hs1 Hf1]]].
    cbv zeta in Hk1.
    destruct (focus_next_position false
                (setFocus (child_id c1) Qt.TabFocusReason d)
                ((k + List.length (focus_candidates d) - 1)
                   mod List.length (focus_candidates d)) c1)
      as [c2 [Hk2 [Hs2 Hf2]]];
      [ rewrite focus_candidates_setFocus; exact Hnd
      | apply candidates_focusable_setFocus; exact Hcf
      | rewrite focus_candidates_setFocus; exact Hk1
      | exact Hf1 |].
    cbv zeta in Hk2. rewrite focus_candidates_setFocus in Hk2.
    assert (E : c2 = c).
    { eapply nth_error_distinct; [exact Hk2 | exact Hk |].
      rewrite Nat.Div0.add_mod_idemp_l.
      replace (k + List.length (focus_candidates d) - 1 + 1)%nat
        with (k + 1 * List.length (focus_candidates d))%nat by lia.
      rewrite Nat.Div0.mod_add. apply Nat.mod_small. exact Hlt. }
    subst c2.
    exists (setFocus (child_id c) Qt.TabFocusReason
              (setFocus (child_id c1) Qt.TabFocusReason d)).
    cbn [press_tabs]. rewrite !keyPress_tab.
    change (negb (Z.land Qt.ShiftModifier Qt.ShiftModifier =? 0)) with true.
    rewrite Hs1. cbn [pybind fst]. rewrite keyPress_tab.
    change (negb (Z.land Qt.NoModifier Qt.ShiftModifier =? 0)) with false.
    rewrite Hs2. cbn [pybind fst]. split; [reflexivity | exact Hf2].
Qed.

Lemma tab_then_back_witness :
  exists d',
    press_tabs [Qt.NoModifier; Qt.ShiftModifier]
               (sample_dialog true (Some 13%nat)) = Ok d'
    /\ focusWidget (tk d') = Some 13%nat.
Proof.
  exact (proj1 (tab_then_back (sample_dialog true (Some 13%nat)) 1
                  (mkChild 13%nat true Qt.TabFocus)
                  (sample_candidates_distinct true (Some 13%nat))
                  (sample_candidates_focusable true (Some 13%nat))
                  eq_refl eq_refl)).
Defined.

(** X18.  [_focus_next] never raises, in either direction and wherever
    the focus is: with no candidate it returns the state as it is;
    otherwise it calls [setFocus] on one descendant that is visible and
    whose focus policy is not [NoFocus], and does nothing else.  So
    afterwards the focus is where it was, or on such a descendant that
    is enabled and in the active window. *)
Theorem focus_next_only_candidates (reverse : bool) (d : State) :
  exists d',
    _focus_next reverse d = Ok d'
    /\ (focus_candidates d = [] -> d' = d)
    /\ (focus_candidates d <> [] ->
        exists c,
          In c (findChildren (tk d))
          /\ child_isVisible c = true
          /\ child_focusPolicy c <> Qt.NoFocus
          /\ d' = setFocus (child_id c) Qt.TabFocusReason d)
    /\ (focusWidget (tk d') = focusWidget (tk d)
        \/ exists c,
             In c (findChildren (tk d))
             /\ child_isVisible c = true
             /\ child_focusPolicy c <> Qt.NoFocus
             /\ focusable (tk d) (child_id c)
             /\ focusWidget (tk d') = Some (child_id c)).
Proof.
  pose proof (focus_next_total reverse d) as H.
  destruct (focus_candidates d) as [| first rest] eqn:Hws.
  - exists d. split; [exact H |]. split; [reflexivity |].
    split; [congruence | left; reflexivity].
  - destruct H as [c [Hin Hrun]].
    exists (setFocus (child_id c) Qt.TabFocusReason d).
    rewrite <- Hws in Hin. unfold focus_candidates in Hin.
    apply filter_In in Hin. destruct Hin as [Hin Hc].
    apply andb_true_iff in Hc. destruct Hc as [Hv Hp].
    apply negb_true_iff, Z.eqb_neq in Hp.
    split; [exact Hrun |]. split; [discriminate |]. split.
    + intros _. exists c. auto.
    + destruct (setFocus_outcome (child_id c) Qt.TabFocusReason d)
        as [[Hable Hf] | [_ He]].
      * right. exists c. auto.
      * left. rewrite He. reflexivity.
Qed.

Lemma focus_next_only_candidates_witness :
  exists d',
    _focus_next false (sample_dialog true (Some 10%nat)) = Ok d'
    /\ focusWidget (tk d') = Some 13%nat.
Proof.
  destruct (focus_next_only_candidates false (sample_dialog true (Some 10%nat)))
    as [d' [Hrun _]].
  exists d'. split; [exact Hrun |].
  vm_compute in Hrun. injection Hrun as <-. reflexivity.
Defined.

(** X20.  With N >= 1 distinct visible, focus-accepting descendants,
    each of them enabled and in the active window, and the focus on the
    first of them: [j] presses of Tab put the focus on the one at
    position [j] modulo N, so N presses bring it back to the first; one
    press of Shift+Tab moves it to the last; and under any sequence of
    Tab presses, with or without Shift, the focus stays on one of these
    descendants. *)
Theorem tab_cycle (d : State) (first : Child) (rest : list Child) :
  focus_candidates d = first :: rest ->
  NoDup (ids (focus_candidates d)) ->
  candidates_focusable d ->
  focusWidget (tk d) = Some (child_id first) ->
  let N := List.length (focus_candidates d) in
  (forall j, exists d' c,
        press_tabs (repeat Qt.NoModifier j) d = Ok d'
        /\ nth_error (focus_candidates d) (j mod N) = Some c
        /\ focusWidget (tk d') = Some (child_id c))
  /\ (exists d', press_tabs (repeat Qt.NoModifier N) d = Ok d'
                 /\ focusWidget (tk d') = Some (child_id first))
  /\ (exists d', keyPressEvent Qt.Key_Tab Qt.ShiftModifier d = Ok (d', true)
                 /\ focusWidget (tk d')
                    = Some (child_id (last (focus_candidates d) first)))
  /\ (forall ms, exists d' w,
         press_tabs ms d = Ok d'
         /\ focusWidget (tk d') = Some w
         /\ In w (ids (focus_candidates d))).
Proof.
  intros Hws Hnd Hcf Hfocus. cbv zeta.
  assert (H0 : nth_error (focus_candidates d) 0 = Some first)
    by (rewrite Hws; reflexivity).
  split; [| split; [| split]].
  - intros j.
    destruct (press_tabs_forward j d 0 first Hnd Hcf H0 Hfocus)
      as [d' [c' [Hrun [Hn [Hf _]]]]].
    exists d', c'. rewrite Nat.add_0_l in Hn. auto.
  - destruct (press_tabs_forward (List.length (focus_candidates d)) d 0 first
                Hnd Hcf H0 Hfocus) as [d' [c' [Hrun [Hn [Hf _]]]]].
    exists d'. split; [exact Hrun |].
    rewrite Nat.add_0_l, Nat.Div0.mod_same in Hn.
    rewrite H0 in Hn. injection Hn as <-. exact Hf.
  - destruct (focus_next_position true d 0 first Hnd Hcf H0 Hfocus)
      as [c' [Hk [Hstep Hf]]].
    cbv zeta in Hk.
    exists (setFocus (child_id c') Qt.TabFocusReason d).
    rewrite keyPress_tab.
    change (negb (Z.land Qt.ShiftModifier Qt.ShiftModifier =? 0)) with true.
    rewrite Hstep. split; [reflexivity |].
    assert (Hlen : (0 < List.length (focus_candidates d))%nat)
      by (rewrite Hws; cbn; lia).
    rewrite Nat.add_0_l, Nat.mod_small in Hk by lia.
    rewrite (nth_error_last _ first) in Hk by (rewrite Hws; discriminate).
    injection Hk as <-. exact Hf.
  - intros ms.
    destruct (press_tabs_inside ms d (child_id first) Hfocus)
      as [d' [w' [Hrun [Hf [Hi _]]]]].
    + rewrite Hws. left. reflexivity.
    + exists d', w'. auto.
Qed.

Lemma tab_cycle_witness :
  (exists d', press_tabs [Qt.NoModifier]
                         (sample_dialog true (Some 10%nat)) = Ok d'
              /\ focusWidget (tk d') = Some 13%nat)
  /\ (exists d', press_tabs [Qt.NoModifier; Qt.NoModifier]
                            (sample_dialog true (Some 10%nat)) = Ok d'
                 /\ focusWidget (tk d') = Some 10%nat)
  /\ (exists d', keyPressEvent Qt.Key_Tab Qt.ShiftModifier
                               (sample_dialog true (Some 10%nat)) = Ok (d', true)
                 /\ focusWidget (tk d') = Some 13%nat).
Proof.
  destruct (tab_cycle (sample_dialog true (Some 10%nat))
              (mkChild 10%nat true Qt.StrongFocus) [mkChild 13%nat true Qt.TabFocus]
              eq_refl (sample_candidates_distinct true (Some 10%nat))
              (sample_candidates_focusable true (Some 10%nat)) eq_refl)
    as [H1 [H2 [H3 _]]].
  split; [| split; [exact H2 | exact H3]].
  destruct (H1 1%nat) as [d' [c [Hrun [Hn Hf]]]].
  exists d'. split; [exact Hrun |].
  rewrite Hf. injection Hn as <-. reflexivity.
Defined.

(** X21.  [_focus_next], in either direction: with no visible,
    focus-accepting descendant it changes nothing; with at least one,
    and the focus on no widget or on a widget that is not one of them,
    it calls [setFocus] on the first of them, which then has the focus
    if it is enabled and in the active window, and otherwise the state
    is as it was. *)
Theorem focus_next_outside (reverse : bool) (d : State) :
  (focus_candidates d = [] -> _focus_next reverse d = Ok d)
  /\ (forall first rest,
        focus_candidates d = first :: rest ->
        (forall w, focusWidget (tk d) = Some w ->
                   ~ In w (ids (focus_candidates d))) ->
        let d' := setFocus (child_id first) Qt.TabFocusReason d in
        _focus_next reverse d = Ok d'
        /\ (focusable (tk d) (child_id first) ->
            focusWidget (tk d') = Some (child_id first))
        /\ (~ focusable (tk d) (child_id first) -> d' = d)).
Proof.
  split.
  - intros Hws. unfold _focus_next. rewrite Hws. reflexivity.
  - intros first rest Hws Hout. cbv zeta. split; [| split].
    + unfold _focus_next. rewrite (py_in_absent _ _ Hout), Hws. reflexivity.
    + intros Hable. rewrite setFocus_granted by exact Hable. reflexivity.
    + intros Hnot.
      destruct (setFocus_outcome (child_id first) Qt.TabFocusReason d)
        as [[Hable _] | [_ He]]; [contradiction | exact He].
Qed.

Lemma focus_next_outside_witness :
  _focus_next true (sample_dialog true (Some 12%nat))
  = Ok (setFocus 10%nat Qt.TabFocusReason (sample_dialog true (Some 12%nat)))
  /\ focusWidget
       (tk (setFocus 10%nat Qt.TabFocusReason
              (sample_dialog true (Some 12%nat)))) = Some 10%nat.
Proof.
  destruct (proj2 (focus_next_outside true (sample_dialog true (Some 12%nat)))
              (mkChild 10%nat true Qt.StrongFocus) [mkChild 13%nat true Qt.TabFocus]
              eq_refl) as [Hrun [Hf _]].
  - intros w Hw. injection Hw as <-. cbn. intros [H | [H | []]]; discriminate.
  - split; [exact Hrun | apply Hf; split; reflexivity].
Defined.


End DialogMore.
